(** * ARIA: a shallow embedding of the analyzers, the conversation graph
      and the LangGraph workflow, with the properties of its specification.

    Source files embedded here:
    - [models.py]                          (enums and dataclasses)
    - [analyzers/therapeutic_analyzer.py]  (module [TherapeuticAnalyzer])
    - [analyzers/personality_analyzer.py]  (module [PersonalityAnalyzer])
    - [graph/conversation_graph.py]        (module [ConversationGraph])
    - [graph/workflow.py]                  (module [ARIAWorkflow])
    - [memory/enhanced_memory.py]          (module [EnhancedMemorySystem])
    - [memory/vector_memory.py]            (module [VectorMemorySystem])

    Modelling choices.
    - A Python [float] is an IEEE-754 binary64 number: Rocq's primitive
      [float], with the same round-to-nearest arithmetic and comparisons.
    - A Python [int] is a [Z].
    - A Python [str] is the [string] of its UTF-8 bytes, so that an ASCII
      character is one byte and every byte of a code point beyond ASCII is
      above 127; [a in b] is the substring test, and [str.lower] gives the
      ASCII letters [str.lower] gives, in their places (see [Py.lower]).
    - A [dict] is a [gmap]; a [list] is a [list].
    - A Python exception is a value of [exn]; a call that may raise returns
      an [outcome].  Calls on the collaborating services (memory, vector
      store) are recorded in a log of [Event]s. *)

From Stdlib Require Import ZArith String Ascii List Bool Floats DecimalString Lia.
From stdpp Require Import gmap strings.
Import ListNotations.

Set Warnings "-inexact-float".
Local Open Scope string_scope.

(* ================================================================== *)
(** * Python primitives *)
(* ================================================================== *)

Module Py.

(** [c.lower()] for an ASCII character: the capitals move by 32. *)
Definition lower_char (c : ascii) : ascii :=
  let n := nat_of_ascii c in
  if Nat.leb 65 n && Nat.leb n 90 then ascii_of_nat (n + 32) else c.

(** The code points beyond ASCII whose lower case holds an ASCII letter,
    in UTF-8: U+212A KELVIN SIGN (lower case [k]) and U+0130 LATIN CAPITAL
    LETTER I WITH DOT ABOVE (lower case [i] followed by U+0307 COMBINING DOT
    ABOVE).  There is no other one. *)
Definition kelvin_sign : string :=
  String "226"%char (String "132"%char (String "170"%char EmptyString)).

Definition capital_i_with_dot_above : string :=
  String "196"%char (String "176"%char EmptyString).

Definition combining_dot_above : string :=
  String "204"%char (String "135"%char EmptyString).

(** [s.lower()], on the UTF-8 form of [s].  As with [str.lower], the ASCII
    capitals become small letters, the Kelvin sign becomes [k] and the
    capital I with dot above becomes [i] followed by the combining dot.
    Every other code point beyond ASCII is kept, where [str.lower] may give
    its small letter instead, which lies beyond ASCII again: the result and
    that of [str.lower] are [same_ascii] (below).  The program uses the
    result for one thing, the search for its keywords, which are ASCII, and
    such a search does not tell the two apart ([contains_same_ascii],
    [keywords_are_ascii]). *)
Fixpoint lower (s : string) : string :=
  match s with
  | EmptyString => EmptyString
  | String c rest =>
      match rest with
      | String c1 rest1 =>
          if Ascii.eqb c "196" && Ascii.eqb c1 "176"
          then String "i" (combining_dot_above ++ lower rest1)
          else
            match rest1 with
            | String c2 rest2 =>
                if Ascii.eqb c "226" && Ascii.eqb c1 "132" && Ascii.eqb c2 "170"
                then String "k" (lower rest2)
                else String (lower_char c) (lower rest)
            | EmptyString => String (lower_char c) (lower rest)
            end
      | EmptyString => String (lower_char c) (lower rest)
      end
  end.

(** A byte of a code point beyond ASCII. *)
Definition beyond_ascii (c : ascii) : bool := Nat.leb 128 (nat_of_ascii c).

(** [s.isascii()] *)
Fixpoint isascii (s : string) : bool :=
  match s with
  | EmptyString => true
  | String c rest => negb (beyond_ascii c) && isascii rest
  end.

Definition starts_beyond_ascii (s : string) : bool :=
  match s with
  | EmptyString => false
  | String c _ => beyond_ascii c
  end.

(** Two texts with the same ASCII characters in the same order, and with
    code points beyond ASCII between the same ones of them: they differ in
    the code points beyond ASCII only, each stretch of which may be another
    stretch of such code points.  [str.lower] of a text and [lower] of it are
    two such texts. *)
Inductive same_ascii : string -> string -> Prop :=
| same_empty : same_ascii EmptyString EmptyString
| same_char (c : ascii) (u v : string) :
    beyond_ascii c = false -> same_ascii u v -> same_ascii (String c u) (String c v)
| same_beyond (c d : ascii) (u v : string) :
    beyond_ascii c = true -> beyond_ascii d = true -> same_ascii u v ->
    same_ascii (String c u) (String d v)
| same_longer_left (c : ascii) (u v : string) :
    beyond_ascii c = true -> starts_beyond_ascii u = true -> same_ascii u v ->
    same_ascii (String c u) v
| same_longer_right (d : ascii) (u v : string) :
    beyond_ascii d = true -> starts_beyond_ascii v = true -> same_ascii u v ->
    same_ascii u (String d v).

(** [s.startswith(p)] *)
Fixpoint startswith (p s : string) : bool :=
  match p, s with
  | EmptyString, _ => true
  | String _ _, EmptyString => false
  | String a p', String b s' => Ascii.eqb a b && startswith p' s'
  end.

(** [sub in s]: [sub] starts at some position of [s]. *)
Fixpoint contains (sub s : string) : bool :=
  startswith sub s ||
  match s with
  | EmptyString => false
  | String _ rest => contains sub rest
  end.

(** [sum(1 for w in words if w in text)] *)
Fixpoint count_in (words : list string) (text : string) : Z :=
  match words with
  | [] => 0
  | w :: rest => ((if contains w text then 1 else 0) + count_in rest text)%Z
  end.

(** [len(l)] *)
Definition len {A} (l : list A) : Z := Z.of_nat (List.length l).

(** [any(w in text for w in words)] *)
Definition any_in (words : list string) (text : string) : bool :=
  existsb (fun w => contains w text) words.

(** The conversion of an [int] to a [float] that [int * float] and
    [int / float] perform, for the integers below 2^63 (it is exact below
    2^53; the integers converted here are counts of at most ten). *)
Definition float_of_int (z : Z) : float :=
  match z with
  | Z0 => 0%float
  | Zpos _ => PrimFloat.of_uint63 (Uint63.of_Z z)
  | Zneg p => (- PrimFloat.of_uint63 (Uint63.of_Z (Zpos p)))%float
  end.

(** [min(a, b)]: the first argument unless the second is smaller. *)
Definition min (a b : float) : float := if (b <? a)%float then b else a.

(** [max(a, b)]: the first argument unless the second is greater. *)
Definition max (a b : float) : float := if (a <? b)%float then b else a.

(** The integer a finite float stands for, when it is one. *)
Definition integral_value (x : float) : option Z :=
  match Prim2SF x with
  | S754_zero _ => Some 0%Z
  | S754_finite s m e =>
      let v := if (0 <=? e)%Z then Some (Zpos m * 2 ^ e)%Z
               else if (Zpos m mod 2 ^ (- e) =? 0)%Z
                    then Some (Zpos m / 2 ^ (- e))%Z else None in
      option_map (fun z : Z => if s then (- z)%Z else z) v
  | _ => None
  end.

(** [repr(x)], as an f-string prints a float.  Only the integral floats
    below 10^16 are covered (["2.0"], ["10.0"]): these are the only ones the
    embedded code formats (see [risk_level_values]); the other floats print
    as ["<float>"]. *)
Definition repr_float (x : float) : string :=
  match Prim2SF x, integral_value x with
  | S754_zero true, _ => "-0.0"
  | _, Some z =>
      if (Z.abs z <? 10 ^ 16)%Z
      then NilEmpty.string_of_int (Z.to_int z) ++ ".0"
      else "<float>"
  | _, None => "<float>"
  end.

End Py.

(* ================================================================== *)
(** * Exceptions and outcomes *)
(* ================================================================== *)

(** The exceptions that occur in the embedded code. *)
Inductive exn : Type :=
| NameError (name : string)        (* a global name that is not defined *)
| NetworkXError (node : string)    (* a node that is not in the graph *)
| GraphRecursionError              (* LangGraph's step limit is reached *)
| ServiceError (msg : string).     (* raised by a collaborator *)

(** What a call does: return a value or raise. *)
Inductive outcome (A : Type) : Type :=
| Returned (a : A)
| Raised (e : exn).
Arguments Returned {A} a.
Arguments Raised {A} e.

(** Evaluating a global name in a module whose top level binds [globals]
    (its imports, classes and assignments): the name is found, or
    [NameError] is raised.  The builtins ([min], [len], ...) are not looked
    up this way. *)
Definition lookup_global (globals : list string) (name : string) : outcome unit :=
  if existsb (String.eqb name) globals then Returned tt else Raised (NameError name).

(* ================================================================== *)
(** * models.py *)
(* ================================================================== *)

Module models.

Inductive ConversationMode : Type :=
| COMPANION | THERAPEUTIC | CRISIS | ASSESSMENT | COACHING.

Inductive PersonalityTrait : Type :=
| OPENNESS | CONSCIENTIOUSNESS | EXTRAVERSION | AGREEABLENESS
| NEUROTICISM | EMPATHY | OPTIMISM | EMOTIONAL_STABILITY.

Definition ConversationMode_beq (a b : ConversationMode) : bool :=
  match a, b with
  | COMPANION, COMPANION | THERAPEUTIC, THERAPEUTIC | CRISIS, CRISIS
  | ASSESSMENT, ASSESSMENT | COACHING, COACHING => true
  | _, _ => false
  end.

(** [ConversationMode.value] *)
Definition ConversationMode_value (m : ConversationMode) : string :=
  match m with
  | COMPANION => "companion" | THERAPEUTIC => "therapeutic"
  | CRISIS => "crisis" | ASSESSMENT => "assessment" | COACHING => "coaching"
  end.

Definition PersonalityTrait_index (t : PersonalityTrait) : nat :=
  match t with
  | OPENNESS => 0 | CONSCIENTIOUSNESS => 1 | EXTRAVERSION => 2
  | AGREEABLENESS => 3 | NEUROTICISM => 4 | EMPATHY => 5 | OPTIMISM => 6
  | EMOTIONAL_STABILITY => 7
  end.

Definition PersonalityTrait_of_index (n : nat) : PersonalityTrait :=
  match n with
  | 0 => OPENNESS | 1 => CONSCIENTIOUSNESS | 2 => EXTRAVERSION
  | 3 => AGREEABLENESS | 4 => NEUROTICISM | 5 => EMPATHY | 6 => OPTIMISM
  | _ => EMOTIONAL_STABILITY
  end.

#[global] Instance PersonalityTrait_eq_dec : EqDecision PersonalityTrait.
Proof. solve_decision. Defined.

#[global] Instance PersonalityTrait_countable : Countable PersonalityTrait.
Proof.
  refine (inj_countable' PersonalityTrait_index PersonalityTrait_of_index _).
  intros t; destruct t; reflexivity.
Defined.

(** A [datetime], as a number of ticks. *)
Definition datetime : Type := Z.

Record PersonalityProfile : Type := mkPersonalityProfile {
  big_five : gmap PersonalityTrait float;
  therapeutic_traits : gmap string float;
  communication_preferences : gmap string float;
  emotional_patterns : list string;
  adaptation_history : list (gmap string string);
  confidence_score : float;
  last_updated : datetime
}.

Record TherapeuticAssessment : Type := mkTherapeuticAssessment {
  mood_score : float;
  anxiety_level : float;
  stress_indicators : list string;
  coping_strategies : list string;
  risk_factors : list string;
  protective_factors : list string;
  therapeutic_goals : list string;
  progress_metrics : gmap string float
}.

Record SEALEdit : Type := mkSEALEdit {
  edit_id : string;
  edit_type : string;
  target_component : string;
  synthetic_data : list (gmap string string);
  hyperparameters : gmap string string;
  effectiveness_score : float;
  implementation_count : Z;
  created_at : datetime
}.

(** One entry of [conversation_history]: [{"role": ..., "content": ...}]. *)
Record Message : Type := mkMessage {
  role : string;
  content : string
}.

(** The dictionary [get_enhanced_context] returns, by the entries the
    workflow reads. *)
Record EnhancedContext : Type := mkEnhancedContext {
  recent_history : list Message;
  total_sessions : Z;              (* ["user_patterns"]["total_sessions"] *)
  relationship_strength : float    (* ["relationship_context"][...] *)
}.

Record ARIAState : Type := mkARIAState {
  user_id : string;
  session_id : string;
  current_message : string;
  conversation_history : list Message;
  personality_profile : PersonalityProfile;
  therapeutic_assessment : TherapeuticAssessment;
  conversation_mode : ConversationMode;
  context_vectors : list float;
  memory_context : option EnhancedContext;   (* [None] is the empty dict *)
  seal_adaptations : list SEALEdit;
  graph_context : gmap string string;
  response : string;
  confidence : float;
  next_action : string
}.

(** [PersonalityProfile()] and [TherapeuticAssessment()], the dataclass
    defaults ([now] is the time of construction). *)
Definition PersonalityProfile_default (now : datetime) : PersonalityProfile :=
  {| big_five := ∅; therapeutic_traits := ∅; communication_preferences := ∅;
     emotional_patterns := []; adaptation_history := [];
     confidence_score := 0.0; last_updated := now |}.

Definition TherapeuticAssessment_default : TherapeuticAssessment :=
  {| mood_score := 5.0; anxiety_level := 5.0; stress_indicators := [];
     coping_strategies := []; risk_factors := []; protective_factors := [];
     therapeutic_goals := []; progress_metrics := ∅ |}.

End models.
Export models.

(* ================================================================== *)
(** * analyzers/therapeutic_analyzer.py *)
(* ================================================================== *)

Module TherapeuticAnalyzer.

Definition mood_indicators_positive : list string :=
  ["happy"; "great"; "wonderful"; "excellent"; "fantastic"; "amazing"].
Definition mood_indicators_neutral : list string :=
  ["okay"; "fine"; "normal"; "usual"; "average"].
Definition mood_indicators_negative : list string :=
  ["sad"; "down"; "terrible"; "awful"; "horrible"; "depressed"].

Definition anxiety_indicators : list string :=
  ["anxious"; "worried"; "panic"; "nervous"; "scared"; "frightened";
   "overwhelmed"; "stressed"; "tense"; "restless"].

Definition crisis_indicators : list string :=
  ["suicide"; "kill myself"; "end it all"; "can't go on"; "hopeless";
   "want to die"; "better off dead"; "no point"; "give up"].

Definition coping_strategies : list (string * list string) :=
  [("cognitive", ["reframe"; "perspective"; "think differently"; "challenge thoughts"]);
   ("behavioral", ["exercise"; "walk"; "breathe"; "relax"; "activity"]);
   ("social", ["talk"; "friends"; "family"; "support"; "help"]);
   ("mindfulness", ["meditate"; "mindful"; "present"; "aware"; "focus"])].

Definition assess_mood (text : string) : float :=
  let text_lower := Py.lower text in
  let positive_count := Py.count_in mood_indicators_positive text_lower in
  let negative_count := Py.count_in mood_indicators_negative text_lower in
  let mood_adjustment :=
    (Py.float_of_int (positive_count - negative_count) * 0.5)%float in
  let mood_score := (5.0 + mood_adjustment)%float in
  Py.max 1.0 (Py.min 10.0 mood_score).

Definition assess_anxiety (text : string) : float :=
  let text_lower := Py.lower text in
  let anxiety_count := Py.count_in anxiety_indicators text_lower in
  let anxiety_score := (3.0 + Py.float_of_int anxiety_count * 1.5)%float in
  Py.max 1.0 (Py.min 10.0 anxiety_score).

Definition detect_crisis (text : string) : bool * float :=
  let text_lower := Py.lower text in
  let crisis_count := Py.count_in crisis_indicators text_lower in
  let is_crisis := (0 <? crisis_count)%Z in
  let risk_level := Py.min (Py.float_of_int crisis_count * 2.0)%float 10.0 in
  (is_crisis, risk_level).

Definition identify_coping_strategies (text : string) : list string :=
  let text_lower := Py.lower text in
  flat_map
    (fun '(category, strategies) =>
       flat_map
         (fun strategy =>
            if Py.contains strategy text_lower
            then [category ++ ": " ++ strategy] else [])
         strategies)
    coping_strategies.

(** [if strategy not in l: l.append(strategy)], for each strategy in turn. *)
Fixpoint append_new (l new : list string) : list string :=
  match new with
  | [] => l
  | strategy :: rest =>
      append_new
        (if existsb (String.eqb strategy) l then l else l ++ [strategy]) rest
  end.

Definition update_therapeutic_assessment
    (current_assessment : TherapeuticAssessment) (new_text : string)
  : TherapeuticAssessment :=
  let new_mood := assess_mood new_text in
  let new_anxiety := assess_anxiety new_text in
  let '(is_crisis, risk_level) := detect_crisis new_text in
  let strategies := identify_coping_strategies new_text in
  let alpha := 0.3%float in
  {| mood_score :=
       ((1 - alpha) * mood_score current_assessment + alpha * new_mood)%float;
     anxiety_level :=
       ((1 - alpha) * anxiety_level current_assessment + alpha * new_anxiety)%float;
     stress_indicators := stress_indicators current_assessment;
     models.coping_strategies :=
       append_new (models.coping_strategies current_assessment) strategies;
     risk_factors :=
       if is_crisis
       then risk_factors current_assessment
              ++ ["Crisis indicators detected: " ++ Py.repr_float risk_level]
       else risk_factors current_assessment;
     protective_factors := protective_factors current_assessment;
     therapeutic_goals := therapeutic_goals current_assessment;
     progress_metrics := progress_metrics current_assessment |}.

End TherapeuticAnalyzer.

(* ================================================================== *)
(** * analyzers/personality_analyzer.py *)
(* ================================================================== *)

Module PersonalityAnalyzer.

(** The names the module binds at top level: its four import lines
    ([numpy as np], [Dict], [PersonalityProfile], [PersonalityTrait],
    [logger]) and its class. *)
Definition module_globals : list string :=
  ["np"; "Dict"; "PersonalityProfile"; "PersonalityTrait"; "logger";
   "PersonalityAnalyzer"].

Definition personality_keywords : list (PersonalityTrait * list string) :=
  [(OPENNESS, ["creative"; "curious"; "open-minded"; "imaginative"; "artistic"]);
   (CONSCIENTIOUSNESS, ["organized"; "responsible"; "reliable"; "disciplined"; "thorough"]);
   (EXTRAVERSION, ["outgoing"; "social"; "talkative"; "energetic"; "assertive"]);
   (AGREEABLENESS, ["kind"; "cooperative"; "trusting"; "helpful"; "sympathetic"]);
   (NEUROTICISM, ["anxious"; "worried"; "stressed"; "emotional"; "sensitive"]);
   (EMPATHY, ["understanding"; "compassionate"; "caring"; "supportive"]);
   (OPTIMISM, ["positive"; "hopeful"; "confident"; "enthusiastic"])].

Definition communication_patterns : list (string * list string) :=
  [("formal", ["please"; "thank you"; "would you"; "could you"; "appreciate"]);
   ("casual", ["hey"; "yeah"; "cool"; "awesome"; "no problem"]);
   ("emotional", ["feel"; "emotion"; "heart"; "soul"; "deeply"]);
   ("analytical", ["think"; "analyze"; "consider"; "evaluate"; "logical"])].

(** The score of one trait; [jitter] is the draw of
    [np.random.normal(0, 0.1)] for it. *)
Definition trait_score (keywords : list string) (text_lower : string)
    (jitter : float) : float :=
  let matches := Py.count_in keywords text_lower in
  let score :=
    Py.min (Py.float_of_int matches
              / Py.max (Py.float_of_int (Py.len keywords) * 0.3) 1)%float 1.0 in
  let score := (score + jitter)%float in
  Py.max 0.0 (Py.min 1.0 score).

(** [normal t] is the random draw made while trait [t] is scored. *)
Definition analyze_text_for_personality (normal : PersonalityTrait -> float)
    (text : string) : list (PersonalityTrait * float) :=
  let text_lower := Py.lower text in
  map (fun '(trait, keywords) =>
         (trait, trait_score keywords text_lower (normal trait)))
      personality_keywords.

Definition detect_communication_style (text : string) : list (string * float) :=
  let text_lower := Py.lower text in
  map (fun '(style, keywords) =>
         let matches := Py.count_in keywords text_lower in
         (style, (Py.float_of_int matches / Py.float_of_int (Py.len keywords))%float))
      communication_patterns.

(** One round of the loop [for key, new_score in observed.items()]: smooth
    the entry that is there, create the one that is not. *)
Definition smooth_into `{Countable K} (alpha : float)
    (d : gmap K float) (observed : list (K * float)) : gmap K float :=
  fold_left
    (fun d '(key, new_score) =>
       match d !! key with
       | Some old => <[key := ((1 - alpha) * old + alpha * new_score)%float]> d
       | None => <[key := new_score]> d
       end)
    observed d.

(** [update_personality_profile] changes [current_profile] in place.  The
    result is the profile as the call leaves it, with what the call does:
    return (the same object) or raise.  [now] is the clock's reading. *)
Definition update_personality_profile (normal : PersonalityTrait -> float)
    (now : datetime) (current_profile : PersonalityProfile) (new_text : string)
  : PersonalityProfile * outcome unit :=
  let new_traits := analyze_text_for_personality normal new_text in
  let new_comm_style := detect_communication_style new_text in
  let alpha := 0.1%float in
  let profile :=
    {| big_five := smooth_into alpha (big_five current_profile) new_traits;
       therapeutic_traits := therapeutic_traits current_profile;
       communication_preferences :=
         smooth_into alpha (communication_preferences current_profile) new_comm_style;
       emotional_patterns := emotional_patterns current_profile;
       adaptation_history := adaptation_history current_profile;
       confidence_score :=
         Py.min (confidence_score current_profile + 0.05)%float 1.0;
       last_updated := last_updated current_profile |} in
  (* current_profile.last_updated = datetime.now() *)
  match lookup_global module_globals "datetime" with
  | Raised e => (profile, Raised e)
  | Returned _ =>
      ({| big_five := big_five profile;
          therapeutic_traits := therapeutic_traits profile;
          communication_preferences := communication_preferences profile;
          emotional_patterns := emotional_patterns profile;
          adaptation_history := adaptation_history profile;
          confidence_score := confidence_score profile;
          last_updated := now |}, Returned tt)
  end.

End PersonalityAnalyzer.

(* ================================================================== *)
(** * graph/conversation_graph.py *)
(* ================================================================== *)

Module ConversationGraph.

Definition states : list string :=
  ["initial"; "greeting"; "personality_assessment"; "mood_check";
   "therapeutic_mode"; "crisis_intervention"; "companion_mode";
   "coaching_mode"; "assessment_mode"; "closure"; "follow_up"].

(** (source, target, condition), in the order the edges are added. *)
Definition transitions : list (string * string * string) :=
  [("initial", "greeting", "first_message");
   ("greeting", "personality_assessment", "new_user");
   ("greeting", "mood_check", "returning_user");
   ("personality_assessment", "mood_check", "assessment_complete");
   ("mood_check", "therapeutic_mode", "distress_detected");
   ("mood_check", "companion_mode", "neutral_mood");
   ("mood_check", "crisis_intervention", "crisis_detected");
   ("therapeutic_mode", "coaching_mode", "progress_made");
   ("therapeutic_mode", "crisis_intervention", "crisis_escalation");
   ("companion_mode", "therapeutic_mode", "support_needed");
   ("crisis_intervention", "therapeutic_mode", "crisis_resolved");
   ("coaching_mode", "companion_mode", "goal_achieved");
   ("assessment_mode", "therapeutic_mode", "issues_identified");
   ("therapeutic_mode", "follow_up", "session_end");
   ("companion_mode", "closure", "conversation_end");
   ("coaching_mode", "closure", "coaching_complete")].

(** [flow_graph.successors(current_state)] with the edge data: the edges
    leaving [current_state], in insertion order ([transitions] adds no pair
    twice).  A node that is not in the graph raises. *)
Definition successors (current_state : string) : outcome (list (string * string)) :=
  if existsb (String.eqb current_state) states
  then Returned
         (flat_map (fun '(source, target, condition) =>
                      if String.eqb source current_state
                      then [(target, condition)] else [])
                   transitions)
  else Raised (NetworkXError current_state).

(** The dictionary of guards. *)
Definition conditions : list (string * (ARIAState -> bool)) :=
  [("first_message", fun context =>
      (Py.len (conversation_history context) =? 0)%Z);
   ("new_user", fun context =>
      (confidence_score (personality_profile context) <? 0.3)%float);
   ("returning_user", fun context =>
      (0.3 <=? confidence_score (personality_profile context))%float);
   ("assessment_complete", fun context =>
      (0.7 <=? confidence_score (personality_profile context))%float);
   ("distress_detected", fun context =>
      (mood_score (therapeutic_assessment context) <? 4.0)%float
      || (7.0 <? anxiety_level (therapeutic_assessment context))%float);
   ("neutral_mood", fun context =>
      ((4.0 <=? mood_score (therapeutic_assessment context))%float
       && (mood_score (therapeutic_assessment context) <=? 7.0)%float)
      && (anxiety_level (therapeutic_assessment context) <=? 7.0)%float);
   ("crisis_detected", fun context =>
      ConversationMode_beq (conversation_mode context) CRISIS);
   ("progress_made", fun context =>
      (6.0 <? mood_score (therapeutic_assessment context))%float);
   ("crisis_escalation", fun context =>
      (0 <? Py.len (risk_factors (therapeutic_assessment context)))%Z);
   ("support_needed", fun context =>
      Py.any_in ["help"; "support"; "struggling"; "difficult"]
                (Py.lower (current_message context)));
   ("crisis_resolved", fun context =>
      (5.0 <? mood_score (therapeutic_assessment context))%float
      && (Py.len (risk_factors (therapeutic_assessment context)) =? 0)%Z);
   ("goal_achieved", fun context =>
      (0 <? Py.len (therapeutic_goals (therapeutic_assessment context)))%Z);
   ("issues_identified", fun context =>
      (0 <? Py.len (stress_indicators (therapeutic_assessment context)))%Z);
   ("session_end", fun context =>
      (20 <? Py.len (conversation_history context))%Z);
   ("conversation_end", fun context =>
      Py.contains "goodbye" (Py.lower (current_message context)));
   ("coaching_complete", fun context =>
      (0.8 <? confidence context)%float)].

(** [d.get(key)] on a dictionary given by its items. *)
Fixpoint dict_get {A} (d : list (string * A)) (key : string) : option A :=
  match d with
  | [] => None
  | (k, v) :: rest => if String.eqb k key then Some v else dict_get rest key
  end.

Definition _evaluate_transition_condition (condition : string)
    (context : ARIAState) : bool :=
  match dict_get conditions condition with
  | Some condition_func => condition_func context
  | None => true
  end.

(** The loop of [get_next_state]: the first edge whose guard holds. *)
Fixpoint first_match (possible_states : list (string * string))
    (context : ARIAState) : option string :=
  match possible_states with
  | [] => None
  | (next_state, condition) :: rest =>
      if _evaluate_transition_condition condition context
      then Some next_state
      else first_match rest context
  end.

Definition get_next_state (current_state : string) (context : ARIAState)
  : outcome string :=
  match successors current_state with
  | Raised e => Raised e
  | Returned possible_states =>
      match first_match possible_states context with
      | Some next_state => Returned next_state
      | None => Returned current_state
      end
  end.

Definition _get_therapeutic_prompt (context : ARIAState) : string :=
  let mood := mood_score (therapeutic_assessment context) in
  let anxiety := anxiety_level (therapeutic_assessment context) in
  if (mood <? 3.0)%float then
    "I can sense you're going through a really tough time. Depression can feel overwhelming, but you don't have to face this alone. What's been weighing on you most heavily?"
  else if (8.0 <? anxiety)%float then
    "It sounds like you're experiencing a lot of anxiety right now. Let's try to work through this together. Can you tell me what's making you feel most anxious?"
  else if (mood <? 5.0)%float then
    "I notice you might be feeling down today. It's okay to have difficult days. What's been on your mind?"
  else
    "I'm here to support you. What would be most helpful for you right now?".

Definition prompts (context : ARIAState) : list (string * string) :=
  [("initial", "Welcome! I'm ARIA, your adaptive AI companion. How are you feeling today?");
   ("greeting", "Hello! It's nice to meet you. I'm here to provide support and companionship.");
   ("personality_assessment", "I'd like to get to know you better. What kind of things do you enjoy talking about?");
   ("mood_check", "How has your day been so far? I'm here to listen.");
   ("therapeutic_mode", _get_therapeutic_prompt context);
   ("crisis_intervention", "I can hear that you're going through a really difficult time right now. Your safety and wellbeing are important to me. Can you tell me more about how you're feeling?");
   ("companion_mode", "I'm glad we can chat together. What's on your mind today?");
   ("coaching_mode", "Let's work together on your goals. What would you like to focus on?");
   ("assessment_mode", "I'd like to understand better how you've been feeling lately. Can you share more about your experiences?");
   ("closure", "Thank you for sharing with me today. Remember, I'm always here when you need support.");
   ("follow_up", "How are you feeling after our conversation? Is there anything else I can help you with?")].

Definition get_conversation_prompt (state : string) (context : ARIAState) : string :=
  match dict_get (prompts context) state with
  | Some prompt => prompt
  | None => "How can I help you today?"
  end.

End ConversationGraph.

(* ================================================================== *)
(** * graph/workflow.py *)
(* ================================================================== *)

Module ARIAWorkflow.

(** The names [workflow.py] binds at top level: its imports and its class.
    [from models import ARIAState, ConversationMode] is all it takes from
    [models]. *)
Definition module_globals : list string :=
  ["StateGraph"; "END"; "HumanMessage"; "AIMessage"; "ChatGoogleGenerativeAI";
   "observe"; "langfuse_context"; "ARIAState"; "ConversationMode";
   "VectorMemorySystem"; "EnhancedMemorySystem"; "PersonalityAnalyzer";
   "TherapeuticAnalyzer"; "SEALFramework"; "ConversationGraph";
   "GOOGLE_API_KEY"; "logger"; "ARIAWorkflow"].

(** ** The collaborators' calls that leave a trace *)

(** The [metadata] dictionary of [add_conversation]. *)
Record TurnMetadata : Type := mkTurnMetadata {
  md_conversation_mode : string;
  md_confidence : float;
  md_personality_confidence : float;
  md_mood_score : float;
  md_anxiety_level : float
}.

Inductive Event : Type :=
| add_conversation (session user_message assistant_response : string)
                   (metadata : TurnMetadata)
| store_personality_vector (user : string) (profile : PersonalityProfile)
| store_conversation_vector (user conversation mode : string)
                            (timestamp : datetime) (session : string).

(** ** Computations that log events and may raise *)

Definition M (A : Type) : Type := list Event -> outcome A * list Event.

Definition ret {A} (a : A) : M A := fun log => (Returned a, log).
Definition raise {A} (e : exn) : M A := fun log => (Raised e, log).
Definition lift {A} (o : outcome A) : M A := fun log => (o, log).
Definition emit (ev : Event) : M unit := fun log => (Returned tt, (log ++ [ev])%list).
Definition bind {A B} (m : M A) (k : A -> M B) : M B :=
  fun log =>
    match m log with
    | (Returned a, log') => k a log'
    | (Raised e, log') => (Raised e, log')
    end.

#[global] Instance M_ret : MRet M := @ret.
#[global] Instance M_bind : MBind M := fun A B k m => bind m k.

(** ** The objects [__init__] stores in [self] *)

(** The services outside the repository's analyzers, by the calls the
    workflow makes on them.
    - [get_conversation_history], [get_enhanced_context]: the memory system
      (both catch their own errors);
    - [get_contextual_embeddings]: the vector system's query vector;
    - [normal]: NumPy's random draw for each trait of this turn;
    - [generate_self_edit]: [seal/seal_framework.py], which is not among
      the sources;
    - [llm_invoke]: the model call of [_generate_response]; its arguments
      (the system prompt and the last six messages) are computed from the
      state, so the call is a function of the state;
    - [now]: the clock. *)
Record Services : Type := mkServices {
  get_conversation_history : string -> Z -> list Message;
  get_enhanced_context : string -> string -> string -> EnhancedContext;
  get_contextual_embeddings : string -> string -> outcome (list float);
  normal : PersonalityTrait -> float;
  generate_self_edit : ARIAState -> SEALEdit;
  llm_invoke : ARIAState -> outcome string;
  now : datetime
}.

(** The two methods the workflow calls on [self.therapeutic_analyzer]. *)
Record TherapeuticAnalyzerObject : Type := mkTherapeuticAnalyzerObject {
  call_detect_crisis : string -> outcome (bool * float);
  call_update_therapeutic_assessment :
    TherapeuticAssessment -> string -> outcome TherapeuticAssessment
}.

(** [TherapeuticAnalyzer()]: on a string neither method raises. *)
Definition TherapeuticAnalyzer_new : TherapeuticAnalyzerObject :=
  {| call_detect_crisis text := Returned (TherapeuticAnalyzer.detect_crisis text);
     call_update_therapeutic_assessment a text :=
       Returned (TherapeuticAnalyzer.update_therapeutic_assessment a text) |}.

Record Self : Type := mkSelf {
  services : Services;
  therapeutic_analyzer : TherapeuticAnalyzerObject
}.

(** [ARIAWorkflow()] *)
Definition __init__ (sv : Services) : Self :=
  {| services := sv; therapeutic_analyzer := TherapeuticAnalyzer_new |}.

(** ** Assignments to the fields of the state *)

Definition set_memory_context (v : option EnhancedContext) (s : ARIAState) : ARIAState :=
  mkARIAState (user_id s) (session_id s) (current_message s)
    (conversation_history s) (personality_profile s) (therapeutic_assessment s)
    (conversation_mode s) (context_vectors s) v (seal_adaptations s)
    (graph_context s) (response s) (confidence s) (next_action s).

Definition set_context_vectors (v : list float) (s : ARIAState) : ARIAState :=
  mkARIAState (user_id s) (session_id s) (current_message s)
    (conversation_history s) (personality_profile s) (therapeutic_assessment s)
    (conversation_mode s) v (memory_context s) (seal_adaptations s)
    (graph_context s) (response s) (confidence s) (next_action s).

Definition set_personality_profile (v : PersonalityProfile) (s : ARIAState) : ARIAState :=
  mkARIAState (user_id s) (session_id s) (current_message s)
    (conversation_history s) v (therapeutic_assessment s)
    (conversation_mode s) (context_vectors s) (memory_context s)
    (seal_adaptations s) (graph_context s) (response s) (confidence s)
    (next_action s).

Definition set_therapeutic_assessment (v : TherapeuticAssessment) (s : ARIAState) : ARIAState :=
  mkARIAState (user_id s) (session_id s) (current_message s)
    (conversation_history s) (personality_profile s) v
    (conversation_mode s) (context_vectors s) (memory_context s)
    (seal_adaptations s) (graph_context s) (response s) (confidence s)
    (next_action s).

Definition set_conversation_mode (v : ConversationMode) (s : ARIAState) : ARIAState :=
  mkARIAState (user_id s) (session_id s) (current_message s)
    (conversation_history s) (personality_profile s) (therapeutic_assessment s)
    v (context_vectors s) (memory_context s) (seal_adaptations s)
    (graph_context s) (response s) (confidence s) (next_action s).

Definition set_seal_adaptations (v : list SEALEdit) (s : ARIAState) : ARIAState :=
  mkARIAState (user_id s) (session_id s) (current_message s)
    (conversation_history s) (personality_profile s) (therapeutic_assessment s)
    (conversation_mode s) (context_vectors s) (memory_context s) v
    (graph_context s) (response s) (confidence s) (next_action s).

Definition set_graph_context (v : gmap string string) (s : ARIAState) : ARIAState :=
  mkARIAState (user_id s) (session_id s) (current_message s)
    (conversation_history s) (personality_profile s) (therapeutic_assessment s)
    (conversation_mode s) (context_vectors s) (memory_context s)
    (seal_adaptations s) v (response s) (confidence s) (next_action s).

Definition set_response (v : string) (s : ARIAState) : ARIAState :=
  mkARIAState (user_id s) (session_id s) (current_message s)
    (conversation_history s) (personality_profile s) (therapeutic_assessment s)
    (conversation_mode s) (context_vectors s) (memory_context s)
    (seal_adaptations s) (graph_context s) v (confidence s) (next_action s).

Definition set_confidence (v : float) (s : ARIAState) : ARIAState :=
  mkARIAState (user_id s) (session_id s) (current_message s)
    (conversation_history s) (personality_profile s) (therapeutic_assessment s)
    (conversation_mode s) (context_vectors s) (memory_context s)
    (seal_adaptations s) (graph_context s) (response s) v (next_action s).

Definition set_confidence_score (v : float) (p : PersonalityProfile) : PersonalityProfile :=
  mkPersonalityProfile (big_five p) (therapeutic_traits p)
    (communication_preferences p) (emotional_patterns p)
    (adaptation_history p) v (last_updated p).

(** ** The nodes *)

Definition _analyze_input (self : Self) (state : ARIAState) : M ARIAState :=
  let enhanced_context :=
    get_enhanced_context (services self)
      (session_id state) (user_id state) (current_message state) in
  let state := set_memory_context (Some enhanced_context) state in
  query_vector ← lift (get_contextual_embeddings (services self)
                          (user_id state) (current_message state));
  ret (set_context_vectors query_vector state).

(** [state.memory_context.get("user_patterns", {}).get("total_sessions", 0)] *)
Definition total_sessions_of (state : ARIAState) : Z :=
  match memory_context state with
  | Some c => total_sessions c
  | None => 0
  end.

Definition _update_personality (self : Self) (state : ARIAState) : M ARIAState :=
  let state :=
    if (0 <? total_sessions_of state)%Z
    then set_personality_profile
           (set_confidence_score 0.5 (personality_profile state)) state
    else state in
  let '(profile, result) :=
    PersonalityAnalyzer.update_personality_profile
      (normal (services self)) (now (services self))
      (personality_profile state) (current_message state) in
  let state := set_personality_profile profile state in
  _ ← lift result;
  _ ← emit (store_personality_vector (user_id state) (personality_profile state));
  ret state.

Definition _update_therapeutic (self : Self) (state : ARIAState) : M ARIAState :=
  assessment ← lift (call_update_therapeutic_assessment (therapeutic_analyzer self)
                        (therapeutic_assessment state) (current_message state));
  ret (set_therapeutic_assessment assessment state).

Definition _determine_mode (self : Self) (state : ARIAState) : M ARIAState :=
  '(is_crisis, _) ← lift (call_detect_crisis (therapeutic_analyzer self)
                             (current_message state));
  if is_crisis : bool then ret (set_conversation_mode CRISIS state)
  else if (mood_score (therapeutic_assessment state) <? 4.0)%float
          || (7.0 <? anxiety_level (therapeutic_assessment state))%float
  then ret (set_conversation_mode THERAPEUTIC state)
  else if (confidence_score (personality_profile state) <? 0.3)%float
  then ret (set_conversation_mode ASSESSMENT state)
  else if Py.any_in ["goal"; "improve"; "achieve"]
                    (Py.lower (current_message state))
  then ret (set_conversation_mode COACHING state)
  else ret (set_conversation_mode COMPANION state).

Definition _route_conversation_mode (state : ARIAState) : ConversationMode :=
  conversation_mode state.

Definition _get_context (self : Self) (state : ARIAState) : M ARIAState :=
  current_graph_state ← lift (ConversationGraph.get_next_state "initial" state);
  ret (set_graph_context
         {[ "current_state" := current_graph_state;
            "suggested_prompt" :=
              ConversationGraph.get_conversation_prompt current_graph_state state ]}
         state).

Definition fallback_response : string :=
  "I'm here to help you. Could you tell me more about what's on your mind?".

Definition _generate_response (self : Self) (state : ARIAState) : M ARIAState :=
  let '(response_content, confidence) :=
    match llm_invoke (services self) state with
    | Returned content => (content, 0.8%float)
    | Raised _ => (fallback_response, 0.3%float)
    end in
  ret (set_confidence confidence (set_response response_content state)).

Definition _apply_seal_adaptation (self : Self) (state : ARIAState) : M ARIAState :=
  if (0 <? Py.len (conversation_history state))%Z then
    let seal_edit := generate_self_edit (services self) state in
    let state := set_seal_adaptations (seal_adaptations state ++ [seal_edit])%list state in
    if bool_decide (hyperparameters seal_edit = ∅) then ret state
    else
      let adaptation_quality := effectiveness_score seal_edit in
      ret (set_confidence
             (Py.min (confidence state + adaptation_quality * 0.1)%float 1.0)
             state)
  else ret state.

Definition newline : string := String (ascii_of_nat 10) EmptyString.

Definition _update_memory (self : Self) (state : ARIAState) : M ARIAState :=
  _ ← emit (add_conversation (session_id state) (current_message state) (response state)
          {| md_conversation_mode := ConversationMode_value (conversation_mode state);
             md_confidence := confidence state;
             md_personality_confidence := confidence_score (personality_profile state);
             md_mood_score := mood_score (therapeutic_assessment state);
             md_anxiety_level := anxiety_level (therapeutic_assessment state) |});
  let conversation_text :=
    "User: " ++ current_message state ++ newline ++ "ARIA: " ++ response state in
  (* "timestamp": datetime.now().isoformat() *)
  _ ← lift (lookup_global module_globals "datetime");
  _ ← emit (store_conversation_vector (user_id state) conversation_text
          (ConversationMode_value (conversation_mode state))
          (now (services self)) (session_id state));
  ret state.

(** ** The compiled graph *)

Inductive Node : Type :=
| analyze_input | update_personality | update_therapeutic | determine_mode
| get_context | generate_response | apply_seal | update_memory.

Inductive Target : Type :=
| To (n : Node)
| END.

(** [add_node] *)
Definition node_action (self : Self) (n : Node) : ARIAState -> M ARIAState :=
  match n with
  | analyze_input => _analyze_input self
  | update_personality => _update_personality self
  | update_therapeutic => _update_therapeutic self
  | determine_mode => _determine_mode self
  | get_context => _get_context self
  | generate_response => _generate_response self
  | apply_seal => _apply_seal_adaptation self
  | update_memory => _update_memory self
  end.

(** The path map of [add_conditional_edges("determine_mode", ...)]. *)
Definition conditional_edges (m : ConversationMode) : Target :=
  match m with
  | CRISIS => To generate_response
  | THERAPEUTIC => To get_context
  | COMPANION => To get_context
  | ASSESSMENT => To get_context
  | COACHING => To get_context
  end.

Definition entry_point : Node := analyze_input.

(** [add_edge], and the conditional edges out of [determine_mode]. *)
Definition successor (n : Node) (state : ARIAState) : Target :=
  match n with
  | determine_mode => conditional_edges (_route_conversation_mode state)
  | analyze_input => To update_personality
  | update_personality => To update_therapeutic
  | update_therapeutic => To determine_mode
  | get_context => To generate_response
  | generate_response => To apply_seal
  | apply_seal => To update_memory
  | update_memory => END
  end.

(** What a run of the graph leaves: the nodes it entered, in order, each
    with the state it was given; the final state or the exception; and the
    log. *)
Record Run : Type := mkRun {
  visited : list (Node * ARIAState);
  result : outcome ARIAState;
  events : list Event
}.

(** The nodes a run entered. *)
Definition path (r : Run) : list Node := map fst (visited r).

(** A run from node [n]: the node's action, then the edge out of it.  An
    exception in a node ends the run.  [limit] is LangGraph's recursion
    limit. *)
Fixpoint run (self : Self) (limit : nat) (n : Node) (state : ARIAState)
    (log : list Event) : Run :=
  match limit with
  | O => mkRun [] (Raised GraphRecursionError) log
  | S limit' =>
      match node_action self n state log with
      | (Raised e, log') => mkRun [(n, state)] (Raised e) log'
      | (Returned state', log') =>
          match successor n state' with
          | END => mkRun [(n, state)] (Returned state') log'
          | To n' =>
              let r := run self limit' n' state' log' in
              mkRun ((n, state) :: visited r) (result r) (events r)
          end
      end
  end.

Definition recursion_limit : nat := 25.

(** [self.workflow.ainvoke(initial_state)] *)
Definition ainvoke (self : Self) (initial_state : ARIAState) (log : list Event) : Run :=
  run self recursion_limit entry_point initial_state log.

Definition apology : string :=
  "I apologize, but I encountered an issue processing your message. Please try again.".

(** The [try] statement of [process_message]. *)
Definition process_message_try (self : Self) (initial_state : ARIAState) : M string :=
  fun log =>
    let r := ainvoke self initial_state log in
    match result r with
    | Returned final => (Returned (response final), events r)
    | Raised _ => (Returned apology, events r)
    end.

Definition process_message (self : Self) (user_message session_id user_id : string)
  : M string :=
  let history := get_conversation_history (services self) session_id 10 in
  (* personality_profile=PersonalityProfile() *)
  _ ← lift (lookup_global module_globals "PersonalityProfile");
  (* therapeutic_assessment=TherapeuticAssessment() *)
  _ ← lift (lookup_global module_globals "TherapeuticAssessment");
  process_message_try self
    {| user_id := user_id; session_id := session_id;
       current_message := user_message;
       conversation_history := history;
       personality_profile := PersonalityProfile_default (now (services self));
       therapeutic_assessment := TherapeuticAssessment_default;
       conversation_mode := COMPANION;
       context_vectors := [];
       memory_context := None;
       seal_adaptations := [];
       graph_context := ∅;
       response := "";
       confidence := 0.0;
       next_action := "" |}.

End ARIAWorkflow.

(* ================================================================== *)
(** * memory/enhanced_memory.py *)
(* ================================================================== *)

Module EnhancedMemorySystem.

(** ** The relationship graph

    [networkx.Graph], as far as the memory system uses it: the nodes in
    insertion order, each with its ['type'] attribute when it has one, and
    the undirected edges in insertion order.  The ['relationship'] attribute
    of an edge is written and never read. *)
Record Graph : Type := mkGraph {
  nodes : list (string * option string);
  edges : list (string * string)
}.

(** [nx.Graph()] *)
Definition empty_graph : Graph := mkGraph [] [].

(** [n in G] *)
Definition has_node (G : Graph) (n : string) : bool :=
  existsb (fun '(m, _) => String.eqb m n) (nodes G).

(** [G.nodes[n].get('type')] *)
Fixpoint type_in (l : list (string * option string)) (n : string) : option string :=
  match l with
  | [] => None
  | (m, ty) :: rest => if String.eqb m n then ty else type_in rest n
  end.

Definition node_type (G : Graph) (n : string) : option string :=
  type_in (nodes G) n.

(** [G.add_node(n, type=ty)]: a new node goes last; a known node gets its
    attribute updated in place. *)
Definition add_node (G : Graph) (n ty : string) : Graph :=
  if has_node G n
  then mkGraph (map (fun '(m, old) => if String.eqb m n then (m, Some ty) else (m, old))
                    (nodes G))
               (edges G)
  else mkGraph (nodes G ++ [(n, Some ty)]) (edges G).

(** The node [add_edge] creates for an end point that is not in the graph:
    it has no attribute. *)
Definition touch_node (G : Graph) (n : string) : Graph :=
  if has_node G n then G else mkGraph (nodes G ++ [(n, None)]) (edges G).

Definition has_edge (G : Graph) (u v : string) : bool :=
  existsb (fun '(a, b) => (String.eqb a u && String.eqb b v)
                          || (String.eqb a v && String.eqb b u))
          (edges G).

(** [G.add_edge(u, v, relationship=...)] *)
Definition add_edge (G : Graph) (u v : string) : Graph :=
  let G := touch_node (touch_node G u) v in
  if has_edge G u v then G else mkGraph (nodes G) (edges G ++ [(u, v)]).

(** The neighbours of a node of the graph, in the order their edges came. *)
Definition adjacent (G : Graph) (n : string) : list string :=
  flat_map (fun '(a, b) =>
              if String.eqb a n then [b]
              else if String.eqb b n then [a] else [])
           (edges G).

(** [G.neighbors(n)] *)
Definition neighbors (G : Graph) (n : string) : outcome (list string) :=
  if has_node G n then Returned (adjacent G n) else Raised (NetworkXError n).

(** ** The messages of the Zep service *)

(** A message as Zep returns it; [getattr(msg, name, default)] reads an
    attribute that may be missing. *)
Record ZepMessage : Type := mkZepMessage {
  role_type : option string;
  zep_content : option string
}.

(** ** The methods *)

(** [f"aria_session_{user_id}_{uuid.uuid4().hex[:8]}"]; [uuid8] is the
    random part. *)
Definition session_name (user_id uuid8 : string) : string :=
  "aria_session_" ++ user_id ++ "_" ++ uuid8.

(** [get_or_create_session]: [zep_add_session] is what the call on the Zep
    service does.  The result is the session id and the graph the call
    leaves. *)
Definition get_or_create_session (zep_add_session : outcome unit) (uuid8 : string)
    (G : Graph) (user_id : string) : string * Graph :=
  let session_id := session_name user_id uuid8 in
  match zep_add_session with
  | Returned _ =>
      let G := add_node G user_id "user" in
      let G := add_node G session_id "session" in
      let G := add_edge G user_id session_id in
      (session_id, G)
  | Raised _ => (session_id, G)
  end.

(** [f"msg_{uuid.uuid4().hex[:8]}"] *)
Definition message_name (uuid8 : string) : string := "msg_" ++ uuid8.

(** [add_conversation]: [zep_add] is what [zep.memory.add] does.  The
    method returns nothing and catches every exception; the result is the
    graph it leaves. *)
Definition add_conversation (zep_add : outcome unit) (uuid8 : string)
    (G : Graph) (session_id : string) : Graph :=
  match zep_add with
  | Returned _ =>
      let message_id := message_name uuid8 in
      let G := add_node G message_id "message" in
      add_edge G session_id message_id
  | Raised _ => G
  end.

(** [get_conversation_history]: [zep_reply] is what
    [zep.memory.get_session_messages] does. *)
Definition get_conversation_history (zep_reply : outcome (list ZepMessage))
  : list Message :=
  match zep_reply with
  | Returned messages =>
      map (fun msg =>
             {| role := match role_type msg with
                        | Some r => if String.eqb r "user" then "user" else "assistant"
                        | None => "assistant"
                        end;
                content := match zep_content msg with
                           | Some c => c
                           | None => ""
                           end |})
          messages
  | Raised _ => []
  end.

Definition emotion_keywords : list (string * list string) :=
  [("joy", ["happy"; "excited"; "wonderful"; "great"; "amazing"]);
   ("sadness", ["sad"; "down"; "depressed"; "blue"; "unhappy"]);
   ("anxiety", ["anxious"; "worried"; "nervous"; "scared"; "stressed"]);
   ("anger", ["angry"; "frustrated"; "mad"; "annoyed"; "irritated"]);
   ("calm", ["calm"; "peaceful"; "relaxed"; "serene"; "tranquil"])].

Definition _extract_emotional_indicators (text : string) : list string :=
  let text_lower := Py.lower text in
  flat_map (fun '(emotion, keywords) =>
              if Py.any_in keywords text_lower then [emotion] else [])
           emotion_keywords.

(** The session nodes that have [user_id] among their neighbours. *)
Definition user_sessions (G : Graph) (user_id : string) : list string :=
  flat_map (fun '(node, ty) =>
              if match ty with
                 | Some t => String.eqb t "session"
                 | None => false
                 end
                 && existsb (fun neighbor => String.eqb neighbor user_id)
                            (adjacent G node)
              then [node] else [])
           (nodes G).

(** The entries of [patterns] that are filled in. *)
Record Patterns : Type := mkPatterns {
  pt_total_sessions : Z;
  pt_emotional_progression : list string
}.

(** [analyze_cross_session_patterns]; [history_of session limit] is what
    [get_conversation_history(session, limit)] returns. *)
Definition analyze_cross_session_patterns (history_of : string -> Z -> list Message)
    (G : Graph) (user_id : string) : Patterns :=
  let sessions := user_sessions G user_id in
  {| pt_total_sessions := Py.len sessions;
     pt_emotional_progression :=
       flat_map (fun session_id =>
                   flat_map (fun msg =>
                               if String.eqb (role msg) "user"
                               then _extract_emotional_indicators (content msg)
                               else [])
                            (history_of session_id 50%Z))
                sessions |}.

(** The dictionary [_get_relationship_context] returns; it has no key
    ['connection_types'] for a user that is not in the graph. *)
Record RelationshipContext : Type := mkRelationshipContext {
  connections : Z;
  rc_relationship_strength : float;
  connection_types : option (list string)
}.

Definition _get_relationship_context (G : Graph) (user_id : string)
  : RelationshipContext :=
  if negb (has_node G user_id)
  then {| connections := 0; rc_relationship_strength := 0.0; connection_types := None |}
  else
    let conns := adjacent G user_id in
    {| connections := Py.len conns;
       rc_relationship_strength := (Py.float_of_int (Py.len conns) / 10.0)%float;
       connection_types :=
         Some (map (fun conn => match node_type G conn with
                                | Some t => t
                                | None => "unknown"
                                end)
                   conns) |}.

(** [get_enhanced_context], by the entries the workflow reads;
    [history_of session limit] is what
    [get_conversation_history(session, limit)] returns. *)
Definition get_enhanced_context (history_of : string -> Z -> list Message)
    (G : Graph) (session_id user_id : string) : EnhancedContext :=
  {| recent_history := history_of session_id 10%Z;
     total_sessions :=
       pt_total_sessions (analyze_cross_session_patterns history_of G user_id);
     relationship_strength :=
       rc_relationship_strength (_get_relationship_context G user_id) |}.

End EnhancedMemorySystem.

(* ================================================================== *)
(** * memory/vector_memory.py *)
(* ================================================================== *)

Module VectorMemorySystem.

Definition dimension : nat := 384.

(** [while len(combined_values) < self.dimension: combined_values.append(0.0)],
    run for at most [rounds] rounds. *)
Fixpoint pad_loop (rounds : nat) (combined_values : list float) : list float :=
  match rounds with
  | O => combined_values
  | S rounds' =>
      if Nat.ltb (List.length combined_values) dimension
      then pad_loop rounds' (combined_values ++ [0.0%float])
      else combined_values
  end.

(** The vector [store_personality_vector] stores, from the values of
    [big_five] and of [therapeutic_traits] in the order of the
    dictionaries.  The loop gets [dimension] rounds, which is enough
    (see [personality_vector_shape]). *)
Definition personality_vector (trait_values therapeutic_values : list float)
  : list float :=
  let combined_values := (trait_values ++ therapeutic_values)%list in
  firstn dimension (pad_loop dimension combined_values).

End VectorMemorySystem.

(* ================================================================== *)
(** * graph/workflow.py: the messages sent to the model *)
(* ================================================================== *)

Module ModelInput.

Inductive ChatMessage : Type :=
| HumanMessage (content : string)
| AIMessage (content : string).

(** [lst[-n:]] *)
Definition last_n {A} (n : nat) (l : list A) : list A :=
  skipn (List.length l - n) l.

(** The list [context_messages] that [_generate_response] builds: the last
    six entries of the history, then the current message. *)
Definition context_messages (state : ARIAState) : list ChatMessage :=
  (map (fun msg =>
          if String.eqb (role msg) "user"
          then HumanMessage (content msg) else AIMessage (content msg))
       (last_n 6 (conversation_history state))
   ++ [HumanMessage (current_message state)])%list.

End ModelInput.

(* ================================================================== *)
(** * graph/workflow.py: the order of the nodes *)
(* ================================================================== *)

Module Pipeline.

Import ARIAWorkflow.

(** The longest way from a node to the end of the graph, in nodes. *)
Definition steps_left (n : Node) : nat :=
  match n with
  | analyze_input => 8
  | update_personality => 7
  | update_therapeutic => 6
  | determine_mode => 5
  | get_context => 4
  | generate_response => 3
  | apply_seal => 2
  | update_memory => 1
  end.

End Pipeline.

(* ================================================================== *)
(** * The relationship graph: what its operations keep *)
(* ================================================================== *)

Module GraphInvariant.

Import EnhancedMemorySystem.

(** Every edge joins two nodes of the graph, as [add_edge] sees to. *)
Definition well_formed (G : Graph) : Prop :=
  forall a b, In (a, b) (edges G) -> has_node G a = true /\ has_node G b = true.

(** No node called [n] is a session node. *)
Definition not_a_session (G : Graph) (n : string) : Prop :=
  ~ In (n, Some "session") (nodes G).

End GraphInvariant.

(* ================================================================== *)
(** * The vocabulary of the specification *)
(* ================================================================== *)

Module Spec.

(** [sub] is a substring of [s]. *)
Definition substring_of (sub s : string) : Prop :=
  exists pre post, s = pre ++ sub ++ post.

(** The number of the listed phrases that occur in a text. *)
Definition hit_count (phrases : list string) (text : string) : Z :=
  Z.of_nat (List.length (List.filter (fun w => Py.contains w text) phrases)).

(** [clamp(x, lo, hi)] *)
Definition clamp (x lo hi : float) : float :=
  if (x <? lo)%float then lo else if (hi <? x)%float then hi else x.

(** [lo <= x <= hi], on floats. *)
Definition within (lo hi x : float) : Prop :=
  (lo <=? x)%float = true /\ (x <=? hi)%float = true.

(** The priority chain of the mode selector, as the specification words
    it: crisis, then distress, then a profile that is not yet trusted, then
    the coaching keywords, then companionship. *)
Definition ModeSelector (is_crisis : bool) (mood anxiety confidence : float)
    (message : string) : ConversationMode :=
  if is_crisis then CRISIS
  else if (mood <? 4.0)%float || (7.0 <? anxiety)%float then THERAPEUTIC
  else if (confidence <? 0.3)%float then ASSESSMENT
  else if existsb (fun w => Py.contains w (Py.lower message))
                  ["goal"; "improve"; "achieve"]
  then COACHING
  else COMPANION.

(** Exponential smoothing with factor [alpha], written with the weights
    the specification gives. *)
Definition smoothed (keep alpha old observed : float) : float :=
  (keep * old + alpha * observed)%float.

End Spec.

(* ================================================================== *)
(** * Sample inputs *)
(* ================================================================== *)

Module Samples.

Definition profile (confidence : float) : PersonalityProfile :=
  {| big_five := ∅; therapeutic_traits := ∅; communication_preferences := ∅;
     emotional_patterns := []; adaptation_history := [];
     confidence_score := confidence; last_updated := 0%Z |}.

Definition assessment (mood anxiety : float) : TherapeuticAssessment :=
  {| mood_score := mood; anxiety_level := anxiety; stress_indicators := [];
     coping_strategies := []; risk_factors := []; protective_factors := [];
     therapeutic_goals := []; progress_metrics := ∅ |}.

(** A state at the start of a turn. *)
Definition turn (message : string) (history : list Message)
    (mood anxiety confidence : float) (mode : ConversationMode) : ARIAState :=
  {| user_id := "user-1"; session_id := "session-1";
     current_message := message;
     conversation_history := history;
     personality_profile := profile confidence;
     therapeutic_assessment := assessment mood anxiety;
     conversation_mode := mode;
     context_vectors := [];
     memory_context := None;
     seal_adaptations := [];
     graph_context := ∅;
     response := "";
     confidence := 0.0;
     next_action := "" |}.

Definition earlier_turn : list Message :=
  [mkMessage "user" "hi"; mkMessage "assistant" "Hello!"].

Definition seal_edit : SEALEdit :=
  {| edit_id := "edit-1"; edit_type := "prompt"; target_component := "tone";
     synthetic_data := []; hyperparameters := ∅; effectiveness_score := 0.0;
     implementation_count := 0; created_at := 0%Z |}.

(** Services whose model call answers [reply]. *)
Definition services_with (reply : outcome string) : ARIAWorkflow.Services :=
  {| ARIAWorkflow.get_conversation_history _ _ := [];
     ARIAWorkflow.get_enhanced_context _ _ _ := mkEnhancedContext [] 0 0.0;
     ARIAWorkflow.get_contextual_embeddings _ _ := Returned [];
     ARIAWorkflow.normal _ := 0.0%float;
     ARIAWorkflow.generate_self_edit _ := seal_edit;
     ARIAWorkflow.llm_invoke _ := reply;
     ARIAWorkflow.now := 0%Z |}.

(** A workflow whose crisis detection raises. *)
Definition workflow_with_failing_detection : ARIAWorkflow.Self :=
  {| ARIAWorkflow.services := services_with (Returned "I hear you.");
     ARIAWorkflow.therapeutic_analyzer :=
       {| ARIAWorkflow.call_detect_crisis _ :=
            Raised (ServiceError "crisis detection failed");
          ARIAWorkflow.call_update_therapeutic_assessment a text :=
            Returned (TherapeuticAnalyzer.update_therapeutic_assessment a text) |} |}.

End Samples.

(* ================================================================== *)
(** * The states the nodes hand on *)
(* ================================================================== *)

Module Outputs.

Import ARIAWorkflow.

(** The state [_update_therapeutic] returns in the workflow [__init__]
    builds. *)
Definition assessed (state : ARIAState) : ARIAState :=
  set_therapeutic_assessment
    (TherapeuticAnalyzer.update_therapeutic_assessment
       (therapeutic_assessment state) (current_message state))
    state.

(** The stage [_get_context] stores. *)
Definition stage_of (state : ARIAState) : string :=
  if (Py.len (conversation_history state) =? 0)%Z then "greeting" else "initial".

(** The state [_get_context] returns. *)
Definition with_context (state : ARIAState) : ARIAState :=
  set_graph_context
    {[ "current_state" := stage_of state;
       "suggested_prompt" :=
         ConversationGraph.get_conversation_prompt (stage_of state) state ]}
    state.

(** The state [_generate_response] returns. *)
Definition generated (self : Self) (state : ARIAState) : ARIAState :=
  match llm_invoke (services self) state with
  | Returned content => set_confidence 0.8 (set_response content state)
  | Raised _ => set_confidence 0.3 (set_response fallback_response state)
  end.

(** The state [_apply_seal_adaptation] returns. *)
Definition after_seal (self : Self) (state : ARIAState) : ARIAState :=
  if (0 <? Py.len (conversation_history state))%Z then
    let seal_edit := generate_self_edit (services self) state in
    let state := set_seal_adaptations (seal_adaptations state ++ [seal_edit])%list state in
    if bool_decide (hyperparameters seal_edit = ∅) then state
    else set_confidence
           (Py.min (confidence state + effectiveness_score seal_edit * 0.1)%float 1.0)
           state
  else state.

(** The event [_update_memory] logs. *)
Definition recorded_turn (state : ARIAState) : Event :=
  add_conversation (session_id state) (current_message state) (response state)
    {| md_conversation_mode := ConversationMode_value (conversation_mode state);
       md_confidence := confidence state;
       md_personality_confidence := confidence_score (personality_profile state);
       md_mood_score := mood_score (therapeutic_assessment state);
       md_anxiety_level := anxiety_level (therapeutic_assessment state) |}.

(** The risk-factor tag of a crisis turn. *)
Definition risk_tag (risk_level : float) : string :=
  "Crisis indicators detected: " ++ Py.repr_float risk_level.

End Outputs.

(* ================================================================== *)
(** * Facts about the Python primitives *)
(* ================================================================== *)

Section PyFacts.

Lemma startswith_iff (p s : string) :
  Py.startswith p s = true <-> exists post, s = p ++ post.
Proof.
  revert s; induction p as [|a p IH]; intros s; simpl.
  - split; [intros _; exists s; reflexivity | reflexivity].
  - destruct s as [|b s].
    + split; [discriminate | intros [post H]; discriminate].
    + rewrite andb_true_iff, IH, Ascii.eqb_eq. split.
      * intros [-> [post ->]]. exists post; reflexivity.
      * intros [post H]. injection H as -> ->. split; [reflexivity | eauto].
Qed.

Lemma contains_iff (sub s : string) :
  Py.contains sub s = true <-> Spec.substring_of sub s.
Proof.
  unfold Spec.substring_of. induction s as [|c s IH].
  - cbn [Py.contains]. rewrite orb_false_r, startswith_iff. split.
    + intros [post H]. exists "", post. exact H.
    + intros [pre [post H]]. destruct pre; [exists post; exact H | discriminate].
  - cbn [Py.contains]. rewrite orb_true_iff, startswith_iff, IH. split.
    + intros [[post H] | [pre [post H]]].
      * exists "", post. exact H.
      * exists (String c pre), post. simpl. rewrite H. reflexivity.
    + intros [pre [post H]]. destruct pre as [|c' pre].
      * left. exists post. exact H.
      * right. simpl in H. injection H as _ H. exists pre, post. exact H.
Qed.

Lemma count_in_hit_count (words : list string) (text : string) :
  Py.count_in words text = Spec.hit_count words text.
Proof.
  unfold Spec.hit_count. induction words as [|w words IH]; [reflexivity|].
  cbn [Py.count_in List.filter]. rewrite IH.
  destruct (Py.contains w text); cbn [List.length]; lia.
Qed.

Lemma hit_count_bounds (words : list string) (text : string) :
  (0 <= Spec.hit_count words text <= Py.len words)%Z.
Proof.
  unfold Spec.hit_count, Py.len. split; [lia|].
  apply inj_le. induction words as [|w words IH]; simpl; [lia|].
  destruct (Py.contains w text); simpl; lia.
Qed.

Lemma hit_count_pos_iff (words : list string) (text : string) :
  (0 <? Spec.hit_count words text)%Z = true
  <-> exists w, In w words /\ Py.contains w text = true.
Proof.
  unfold Spec.hit_count. rewrite Z.ltb_lt. split.
  - intros H.
    destruct (List.filter (fun w => Py.contains w text) words) as [|w l] eqn:E;
      [simpl in H; lia|].
    assert (Hin : In w (List.filter (fun w => Py.contains w text) words))
      by (rewrite E; left; reflexivity).
    apply filter_In in Hin. exists w. exact Hin.
  - intros [w Hw]. apply (filter_In (fun w => Py.contains w text)) in Hw.
    destruct (List.filter (fun w => Py.contains w text) words); [destruct Hw|].
    simpl. lia.
Qed.

(** A property of the integers [0 .. n] is settled by settling it for each
    of them. *)
Lemma for_each_upto (n : nat) (P : Z -> Prop) :
  Forall P (map Z.of_nat (seq 0 (S n))) ->
  forall z, (0 <= z <= Z.of_nat n)%Z -> P z.
Proof.
  intros Hall z Hz. rewrite List.Forall_forall in Hall. apply Hall.
  apply in_map_iff. exists (Z.to_nat z). split; [lia|].
  apply in_seq. lia.
Qed.

End PyFacts.

(* ================================================================== *)
(** * Lower case and the keyword searches *)
(* ================================================================== *)

Section LowerCase.

(** The Kelvin sign and the capital I with dot above, among ASCII letters. *)
Lemma lower_beyond_ascii :
  Py.lower ("HELP " ++ Py.kelvin_sign ++ "ILL " ++ Py.capital_i_with_dot_above ++ "X")
  = "help kill i" ++ Py.combining_dot_above ++ "x".
Proof. vm_compute. reflexivity. Qed.

(** The ASCII capitals, and ASCII characters that are no capitals. *)
Lemma lower_ascii_sample :
  Py.lower "ABCDEFGHIJKLMNOPQRSTUVWXYZ @[`{ abcxyz 0189 can't GO on"
  = "abcdefghijklmnopqrstuvwxyz @[`{ abcxyz 0189 can't go on".
Proof. vm_compute. reflexivity. Qed.

(** On an ASCII text, [lower] is [lower_char] on every character. *)
Lemma lower_isascii (s : string) :
  Py.isascii s = true ->
  Py.isascii (Py.lower s) = true
  /\ String.length (Py.lower s) = String.length s
  /\ forall n, String.get n (Py.lower s) = option_map Py.lower_char (String.get n s).
Proof.
  assert (Hchar : forall c, Py.beyond_ascii c = false ->
                    Py.beyond_ascii (Py.lower_char c) = false
                    /\ Ascii.eqb c "196" = false /\ Ascii.eqb c "226" = false).
  { intros [[] [] [] [] [] [] [] []]; vm_compute; intros H;
      repeat split; try reflexivity; discriminate. }
  induction s as [|c s IH]; intros Hs.
  - repeat split.
  - cbn [Py.isascii] in Hs. apply andb_true_iff in Hs as [Hc Hs].
    apply negb_true_iff in Hc. destruct (Hchar c Hc) as [Hl [H196 H226]].
    destruct (IH Hs) as [IH1 [IH2 IH3]].
    assert (E : Py.lower (String c s) = String (Py.lower_char c) (Py.lower s)).
    { cbn [Py.lower]. rewrite H196, H226. cbn [andb].
      destruct s as [|c1 [|c2 s2]]; reflexivity. }
    rewrite E. cbn [Py.isascii String.length]. rewrite Hl, IH1, IH2.
    split; [reflexivity | split; [reflexivity |]].
    intros [|n]; [reflexivity | apply IH3].
Qed.

Lemma same_ascii_starts (u v : string) :
  Py.same_ascii u v -> Py.starts_beyond_ascii u = Py.starts_beyond_ascii v.
Proof.
  induction 1 as [|c u v Hc _ _|c d u v Hc Hd _ _|c u v Hc Hu _ IH|d u v Hd Hv _ IH];
    cbn [Py.starts_beyond_ascii]; congruence.
Qed.

(** A keyword of ASCII characters does not start at a byte beyond ASCII. *)
Lemma startswith_beyond (w s : string) :
  Py.isascii w = true -> Py.starts_beyond_ascii s = true ->
  Py.startswith w s = (if w is EmptyString then true else false).
Proof.
  destruct w as [|a w]; [reflexivity|]. destruct s as [|c s]; [discriminate|].
  cbn [Py.isascii Py.starts_beyond_ascii Py.startswith]. intros Hw Hc.
  apply andb_true_iff in Hw as [Ha _]. apply negb_true_iff in Ha.
  destruct (Ascii.eqb_spec a c) as [->|]; [congruence | reflexivity].
Qed.

Lemma startswith_same_ascii (w u v : string) :
  Py.isascii w = true -> Py.same_ascii u v -> Py.startswith w u = Py.startswith w v.
Proof.
  intros Hw H. revert w Hw.
  induction H as [|c u v Hc H IH|c d u v Hc Hd H IH|c u v Hc Hu H IH|d u v Hd Hv H IH];
    intros w Hw.
  - reflexivity.
  - destruct w as [|a w]; [reflexivity|]. cbn [Py.startswith].
    cbn [Py.isascii] in Hw. apply andb_true_iff in Hw as [_ Hw].
    rewrite (IH w Hw). reflexivity.
  - rewrite !startswith_beyond by (assumption || exact Hc || exact Hd). reflexivity.
  - rewrite (startswith_beyond w (String c u)) by (assumption || exact Hc).
    rewrite (startswith_beyond w v); [reflexivity | assumption |].
    rewrite <- (same_ascii_starts u v H). exact Hu.
  - rewrite (startswith_beyond w (String d v)) by (assumption || exact Hd).
    rewrite (startswith_beyond w u); [reflexivity | assumption |].
    rewrite (same_ascii_starts u v H). exact Hv.
Qed.

(** The search for a keyword of ASCII characters gives the same answer on
    two texts that differ in their code points beyond ASCII only. *)
Lemma contains_same_ascii (w u v : string) :
  Py.isascii w = true -> Py.same_ascii u v -> Py.contains w u = Py.contains w v.
Proof.
  intros Hw H.
  induction H as [|c u v Hc H IH|c d u v Hc Hd H IH|c u v Hc Hu H IH|d u v Hd Hv H IH].
  - reflexivity.
  - cbn [Py.contains]. rewrite IH.
    rewrite (startswith_same_ascii w (String c u) (String c v) Hw
               (Py.same_char c u v Hc H)). reflexivity.
  - cbn [Py.contains]. rewrite IH.
    rewrite (startswith_same_ascii w (String c u) (String d v) Hw
               (Py.same_beyond c d u v Hc Hd H)). reflexivity.
  - cbn [Py.contains]. rewrite IH.
    rewrite (startswith_beyond w (String c u)) by (assumption || exact Hc).
    destruct w; [|reflexivity]. destruct v; reflexivity.
  - cbn [Py.contains]. rewrite <- IH.
    rewrite (startswith_beyond w (String d v)) by (assumption || exact Hd).
    destruct w; [|reflexivity]. destruct u; reflexivity.
Qed.

Lemma count_in_same_ascii (words : list string) (u v : string) :
  forallb Py.isascii words = true -> Py.same_ascii u v ->
  Py.count_in words u = Py.count_in words v
  /\ Py.any_in words u = Py.any_in words v.
Proof.
  intros Hw H. unfold Py.any_in.
  induction words as [|w words IH]; [split; reflexivity|].
  cbn [forallb] in Hw. apply andb_true_iff in Hw as [Hw Hws].
  destruct (IH Hws) as [IH1 IH2].
  cbn [Py.count_in existsb]. rewrite (contains_same_ascii w u v Hw H), IH1, IH2.
  split; reflexivity.
Qed.

(** So are the counts and the substring facts the properties below are
    stated with: for keywords of ASCII characters they are the same on
    [lower text] and on every text that differs from it in the code points
    beyond ASCII only. *)
Lemma hit_count_same_ascii (words : list string) (u v : string) :
  forallb Py.isascii words = true -> Py.same_ascii u v ->
  Spec.hit_count words u = Spec.hit_count words v
  /\ forall w, In w words -> Spec.substring_of w u <-> Spec.substring_of w v.
Proof.
  intros Hw H. split.
  - rewrite <- !count_in_hit_count. apply count_in_same_ascii; assumption.
  - intros w Hin. rewrite <- !contains_iff.
    rewrite forallb_forall in Hw.
    rewrite (contains_same_ascii w u v (Hw w Hin) H). reflexivity.
Qed.

Lemma same_ascii_refl (s : string) : Py.same_ascii s s.
Proof.
  induction s as [|c s IH]; [constructor|].
  destruct (Py.beyond_ascii c) eqn:E.
  - apply Py.same_beyond; assumption.
  - apply Py.same_char; assumption.
Qed.

(** [lower] keeps a capital letter beyond ASCII where [str.lower] gives its
    small letter: U+00C9 (bytes 195 137) and U+00E9 (bytes 195 169) in
    the word CAFE with an acute accent. *)
Lemma lower_same_ascii_sample :
  let capital_e_acute := String "195"%char (String "137"%char EmptyString) in
  let small_e_acute := String "195"%char (String "169"%char EmptyString) in
  Py.lower ("CAF" ++ capital_e_acute ++ "S") = "caf" ++ capital_e_acute ++ "s"
  /\ Py.same_ascii (Py.lower ("CAF" ++ capital_e_acute ++ "S"))
                   ("caf" ++ small_e_acute ++ "s").
Proof.
  cbn zeta. split; [vm_compute; reflexivity|].
  vm_compute. repeat first [apply Py.same_char; [reflexivity|]
                           | apply Py.same_beyond; [reflexivity | reflexivity |]].
  apply Py.same_empty.
Qed.

(** Every keyword the program searches a lower-cased text for is made of
    ASCII characters: the tables of the two analyzers and of the memory
    system, the coaching words of [_determine_mode] and the words of the
    guards of the conversation graph. *)
Lemma keywords_are_ascii :
  forallb Py.isascii
    (TherapeuticAnalyzer.mood_indicators_positive
     ++ TherapeuticAnalyzer.mood_indicators_negative
     ++ TherapeuticAnalyzer.anxiety_indicators
     ++ TherapeuticAnalyzer.crisis_indicators
     ++ flat_map snd TherapeuticAnalyzer.coping_strategies
     ++ flat_map snd PersonalityAnalyzer.personality_keywords
     ++ flat_map snd PersonalityAnalyzer.communication_patterns
     ++ flat_map snd EnhancedMemorySystem.emotion_keywords
     ++ ["goal"; "improve"; "achieve"]
     ++ ["help"; "support"; "struggling"; "difficult"; "goodbye"])%list
  = true.
Proof. vm_compute. reflexivity. Qed.

(** Texts with a Kelvin sign for a [k]: the three searches see the [k]. *)
Lemma detect_crisis_kelvin_sign :
  TherapeuticAnalyzer.detect_crisis (Py.kelvin_sign ++ "ill myself") = (true, 2.0%float).
Proof. vm_compute. reflexivity. Qed.

Lemma identify_coping_strategies_kelvin_sign :
  TherapeuticAnalyzer.identify_coping_strategies ("tal" ++ Py.kelvin_sign)
  = ["social: talk"].
Proof. vm_compute. reflexivity. Qed.

Lemma detect_communication_style_kelvin_sign :
  PersonalityAnalyzer.detect_communication_style ("than" ++ Py.kelvin_sign ++ " you")
  = [("formal", 0.2%float); ("casual", 0.0%float);
     ("emotional", 0.0%float); ("analytical", 0.0%float)].
Proof. vm_compute. reflexivity. Qed.

End LowerCase.

(** Settles a goal [forall z, 0 <= z <= n -> P z] on floats by evaluating
    [P] at each integer of the range. *)
Ltac by_cases_upto n :=
  apply (for_each_upto n); cbn [seq map];
  repeat (apply List.Forall_cons; [vm_compute; try reflexivity; auto |]);
  apply List.Forall_nil.

(* ================================================================== *)
(** * The therapeutic analyzer *)
(* ================================================================== *)

Section TherapeuticAnalyzerFacts.

Lemma risk_level_of_count :
  forall z, (0 <= z <= Z.of_nat 9)%Z ->
    Py.min (Py.float_of_int z * 2.0)%float 10.0 = Py.float_of_int (Z.min (2 * z) 10)
    /\ Py.min (Py.float_of_int z * 2.0)%float 10.0
       = Py.min (2.0 * Py.float_of_int z)%float 10.0.
Proof. by_cases_upto 9%nat. Qed.

Lemma float_of_int_monotone :
  forall a, (0 <= a <= Z.of_nat 10)%Z -> forall b, (0 <= b <= Z.of_nat 10)%Z ->
    (a <= b)%Z -> (Py.float_of_int a <=? Py.float_of_int b)%float = true.
Proof.
  intros a Ha b Hb Hab.
  assert (Hd : exists d, (0 <= d <= Z.of_nat 10)%Z /\ b = (a + d)%Z)
    by (exists (b - a)%Z; lia).
  destruct Hd as [d [Hd ->]]. clear Hb Hab. revert d Hd. revert a Ha.
  apply (for_each_upto 10
           (fun a => forall d, (0 <= d <= Z.of_nat 10)%Z ->
              (Py.float_of_int a <=? Py.float_of_int (a + d))%float = true));
    cbn [seq map];
    repeat (apply List.Forall_cons; [by_cases_upto 10%nat |]); apply List.Forall_nil.
Qed.

(** The risk levels are the even numbers up to ten, which [repr_float]
    prints exactly. *)
Lemma risk_level_values (text : string) :
  In (Py.repr_float (snd (TherapeuticAnalyzer.detect_crisis text)))
     ["0.0"; "2.0"; "4.0"; "6.0"; "8.0"; "10.0"].
Proof.
  unfold TherapeuticAnalyzer.detect_crisis. cbn [snd].
  rewrite count_in_hit_count.
  pose proof (hit_count_bounds TherapeuticAnalyzer.crisis_indicators (Py.lower text)) as Hb.
  change (Py.len TherapeuticAnalyzer.crisis_indicators) with (Z.of_nat 9) in Hb.
  revert Hb. generalize (Spec.hit_count TherapeuticAnalyzer.crisis_indicators (Py.lower text)).
  apply (for_each_upto 9); cbn [seq map];
    repeat (apply List.Forall_cons; [vm_compute; tauto |]); apply List.Forall_nil.
Qed.

(** C3. For every text, [detect_crisis] reports a crisis exactly when one of
    the listed crisis phrases is a substring of the lower-cased text; its
    risk is min(2 * hits, 10) for the number [hits] of listed phrases that
    occur; and the risk grows with that number.  The lower-cased text is
    [Py.lower text], with the [k] of a Kelvin sign and the [i] of a capital
    I with dot above; the phrases being ASCII, [hits] and the substring
    facts are the same on every text that differs from it beyond ASCII only
    ([hit_count_same_ascii]). *)
Theorem detect_crisis_spec (text : string) :
  let hits := Spec.hit_count TherapeuticAnalyzer.crisis_indicators (Py.lower text) in
  let '(is_crisis, risk) := TherapeuticAnalyzer.detect_crisis text in
  (is_crisis = true
     <-> exists phrase, In phrase TherapeuticAnalyzer.crisis_indicators
                        /\ Spec.substring_of phrase (Py.lower text))
  /\ risk = Py.float_of_int (Z.min (2 * hits) 10)
  /\ risk = Py.min (2.0 * Py.float_of_int hits)%float 10.0
  /\ (forall text',
        (hits <= Spec.hit_count TherapeuticAnalyzer.crisis_indicators (Py.lower text'))%Z ->
        (risk <=? snd (TherapeuticAnalyzer.detect_crisis text'))%float = true).
Proof.
  unfold TherapeuticAnalyzer.detect_crisis. cbn zeta.
  rewrite count_in_hit_count.
  pose proof (hit_count_bounds TherapeuticAnalyzer.crisis_indicators (Py.lower text)) as Hb.
  change (Py.len TherapeuticAnalyzer.crisis_indicators) with (Z.of_nat 9) in Hb.
  destruct (risk_level_of_count _ Hb) as [Hint Hfloat].
  split; [|split; [exact Hint | split; [rewrite <- Hfloat; reflexivity |]]].
  - rewrite hit_count_pos_iff. split.
    + intros [w [Hin Hc]]. exists w. split; [exact Hin | apply contains_iff, Hc].
    + intros [w [Hin Hs]]. exists w. split; [exact Hin | apply contains_iff, Hs].
  - intros text' Hle. cbn [snd]. rewrite count_in_hit_count.
    pose proof (hit_count_bounds TherapeuticAnalyzer.crisis_indicators (Py.lower text')) as Hb'.
    change (Py.len TherapeuticAnalyzer.crisis_indicators) with (Z.of_nat 9) in Hb'.
    destruct (risk_level_of_count _ Hb') as [Hint' _].
    rewrite Hint, Hint'. apply float_of_int_monotone; lia.
Qed.

Lemma mood_of_counts :
  forall p, (0 <= p <= Z.of_nat 6)%Z -> forall n, (0 <= n <= Z.of_nat 6)%Z ->
    let mood := Py.max 1.0 (Py.min 10.0 (5.0 + Py.float_of_int (p - n) * 0.5)%float) in
    mood = Spec.clamp (5.0 + 0.5 * Py.float_of_int (p - n))%float 1.0 10.0
    /\ Spec.within 1.0 10.0 mood.
Proof.
  apply (for_each_upto 6
           (fun p => forall n, (0 <= n <= Z.of_nat 6)%Z ->
              let mood :=
                Py.max 1.0 (Py.min 10.0 (5.0 + Py.float_of_int (p - n) * 0.5)%float) in
              mood = Spec.clamp (5.0 + 0.5 * Py.float_of_int (p - n))%float 1.0 10.0
              /\ Spec.within 1.0 10.0 mood));
    cbn [seq map];
    repeat (apply List.Forall_cons; [by_cases_upto 6%nat |]); apply List.Forall_nil.
Qed.

Lemma anxiety_of_count :
  forall c, (0 <= c <= Z.of_nat 10)%Z ->
    let anxiety := Py.max 1.0 (Py.min 10.0 (3.0 + Py.float_of_int c * 1.5)%float) in
    anxiety = Spec.clamp (3.0 + 1.5 * Py.float_of_int c)%float 1.0 10.0
    /\ Spec.within 1.0 10.0 anxiety.
Proof. by_cases_upto 10%nat. Qed.

(** C5. For every text, [assess_mood] is
    clamp(5.0 + 0.5 * (positive hits - negative hits), 1, 10) and
    [assess_anxiety] is clamp(3.0 + 1.5 * anxiety hits, 1, 10), the hits
    counted against the fixed keyword lists in the lower-cased text; both
    lie in [1, 10]. *)
Theorem assess_mood_anxiety_spec (text : string) :
  let positive_hits :=
    Spec.hit_count TherapeuticAnalyzer.mood_indicators_positive (Py.lower text) in
  let negative_hits :=
    Spec.hit_count TherapeuticAnalyzer.mood_indicators_negative (Py.lower text) in
  let anxiety_hits :=
    Spec.hit_count TherapeuticAnalyzer.anxiety_indicators (Py.lower text) in
  TherapeuticAnalyzer.assess_mood text
    = Spec.clamp (5.0 + 0.5 * Py.float_of_int (positive_hits - negative_hits))%float
                 1.0 10.0
  /\ TherapeuticAnalyzer.assess_anxiety text
     = Spec.clamp (3.0 + 1.5 * Py.float_of_int anxiety_hits)%float 1.0 10.0
  /\ Spec.within 1.0 10.0 (TherapeuticAnalyzer.assess_mood text)
  /\ Spec.within 1.0 10.0 (TherapeuticAnalyzer.assess_anxiety text).
Proof.
  unfold TherapeuticAnalyzer.assess_mood, TherapeuticAnalyzer.assess_anxiety.
  cbn zeta. rewrite !count_in_hit_count.
  pose proof (hit_count_bounds TherapeuticAnalyzer.mood_indicators_positive (Py.lower text)) as Hp.
  pose proof (hit_count_bounds TherapeuticAnalyzer.mood_indicators_negative (Py.lower text)) as Hn.
  pose proof (hit_count_bounds TherapeuticAnalyzer.anxiety_indicators (Py.lower text)) as Ha.
  change (Py.len TherapeuticAnalyzer.mood_indicators_positive) with (Z.of_nat 6) in Hp.
  change (Py.len TherapeuticAnalyzer.mood_indicators_negative) with (Z.of_nat 6) in Hn.
  change (Py.len TherapeuticAnalyzer.anxiety_indicators) with (Z.of_nat 10) in Ha.
  destruct (mood_of_counts _ Hp _ Hn) as [Hm Hmr].
  destruct (anxiety_of_count _ Ha) as [Hx Hxr].
  split; [exact Hm | split; [exact Hx | split; [exact Hmr | exact Hxr]]].
Qed.

Lemma existsb_eqb_In (x : string) (l : list string) :
  existsb (String.eqb x) l = true <-> In x l.
Proof.
  rewrite existsb_exists. split.
  - intros [y [Hin Heq]]. apply String.eqb_eq in Heq. subst y. exact Hin.
  - intros Hin. exists x. split; [exact Hin | apply String.eqb_refl].
Qed.

(** What the loop over the identified strategies appends: each identified
    strategy that the list does not hold yet, once. *)
Lemma append_new_spec (new l : list string) :
  exists added,
    TherapeuticAnalyzer.append_new l new = (l ++ added)%list
    /\ List.NoDup added
    /\ (forall s, In s added <-> In s new /\ ~ In s l).
Proof.
  revert l. induction new as [|x rest IH]; intros l; cbn [TherapeuticAnalyzer.append_new].
  - exists []. split; [symmetry; apply app_nil_r|].
    split; [constructor|]. intros s. simpl. tauto.
  - destruct (existsb (String.eqb x) l) eqn:E.
    + apply existsb_eqb_In in E.
      destruct (IH l) as [added [Heq [Hnd Hin]]].
      exists added. split; [exact Heq | split; [exact Hnd|]].
      intros s. rewrite Hin. simpl. split; [tauto|].
      intros [[<- | Hs] Hn]; [contradiction | tauto].
    + assert (Hx : ~ In x l).
      { intros H. apply existsb_eqb_In in H. congruence. }
      destruct (IH (l ++ [x])%list) as [added [Heq [Hnd Hin]]].
      exists (x :: added). split; [rewrite Heq, <- app_assoc; reflexivity|].
      split.
      * constructor; [|exact Hnd]. intros H. apply Hin in H.
        destruct H as [_ H]. apply H, in_or_app. right. left. reflexivity.
      * intros s. simpl. rewrite Hin. split.
        -- intros [<- | [Hr Hn]]; [tauto|].
           split; [tauto|]. intros H. apply Hn, in_or_app. left. exact H.
        -- intros [[<- | Hr] Hn]; [tauto|].
           destruct (string_dec x s) as [<- | Hne]; [tauto|].
           right. split; [exact Hr|]. intros H. apply in_app_or in H.
           destruct H as [H | [H | []]]; [tauto | congruence].
Qed.

(** A crisis text adds its tag to [risk_factors]; any other text leaves the
    list alone. *)
Lemma risk_factors_updated (a : TherapeuticAssessment) (text : string) :
  risk_factors (TherapeuticAnalyzer.update_therapeutic_assessment a text)
  = if fst (TherapeuticAnalyzer.detect_crisis text)
    then (risk_factors a
            ++ [Outputs.risk_tag (snd (TherapeuticAnalyzer.detect_crisis text))])%list
    else risk_factors a.
Proof.
  unfold TherapeuticAnalyzer.update_therapeutic_assessment.
  destruct (TherapeuticAnalyzer.detect_crisis text) as [is_crisis risk_level].
  reflexivity.
Qed.

(** C8. [update_therapeutic_assessment] smooths mood and anxiety with
    alpha = 0.3 (new = 0.7 * old + 0.3 * observed); it appends to
    [coping_strategies] the identified strategies that are not yet there,
    each once, so the list keeps its old entries and stays free of
    duplicates; and it appends one risk-factor tag when the text is a crisis
    text, whether or not the same tag is already there, and leaves
    [risk_factors] alone otherwise. *)
Theorem update_therapeutic_assessment_spec (a : TherapeuticAssessment) (text : string) :
  let a' := TherapeuticAnalyzer.update_therapeutic_assessment a text in
  let identified := TherapeuticAnalyzer.identify_coping_strategies text in
  let '(is_crisis, risk_level) := TherapeuticAnalyzer.detect_crisis text in
  mood_score a'
    = Spec.smoothed 0.7 0.3 (mood_score a) (TherapeuticAnalyzer.assess_mood text)
  /\ anxiety_level a'
     = Spec.smoothed 0.7 0.3 (anxiety_level a) (TherapeuticAnalyzer.assess_anxiety text)
  /\ (exists added,
        coping_strategies a' = (coping_strategies a ++ added)%list
        /\ List.NoDup added
        /\ (forall s, In s added <-> In s identified /\ ~ In s (coping_strategies a)))
  /\ (List.NoDup (coping_strategies a) -> List.NoDup (coping_strategies a'))
  /\ risk_factors a'
     = (if is_crisis
        then (risk_factors a
                ++ [("Crisis indicators detected: " ++ Py.repr_float risk_level)%string])%list
        else risk_factors a).
Proof.
  cbn zeta. unfold TherapeuticAnalyzer.update_therapeutic_assessment.
  destruct (TherapeuticAnalyzer.detect_crisis text) as [is_crisis risk_level].
  cbn [mood_score anxiety_level coping_strategies risk_factors].
  destruct (append_new_spec (TherapeuticAnalyzer.identify_coping_strategies text)
              (coping_strategies a)) as [added [Heq [Hnd Hin]]].
  split; [reflexivity | split; [reflexivity|]].
  split; [exists added; auto | split; [| reflexivity]].
  intros Hold. rewrite Heq. apply List.NoDup_app; [exact Hold | exact Hnd |].
  intros s Hs Hadded. apply Hin in Hadded. tauto.
Qed.

End TherapeuticAnalyzerFacts.

(* ================================================================== *)
(** * The personality analyzer *)
(* ================================================================== *)

Section PersonalityAnalyzerFacts.

Context `{Countable K}.

(** A key that is not observed keeps its entry. *)
Lemma smooth_into_other (alpha : float) (observed : list (K * float))
    (d : gmap K float) (key : K) :
  ~ In key (map fst observed) ->
  PersonalityAnalyzer.smooth_into alpha d observed !! key = d !! key.
Proof.
  unfold PersonalityAnalyzer.smooth_into.
  revert d. induction observed as [|[k v] rest IH]; intros d Hnot; [reflexivity|].
  cbn [fold_left]. cbn [map fst In] in Hnot.
  rewrite IH by tauto.
  destruct (d !! k); apply lookup_insert_ne; tauto.
Qed.

(** An observed key is smoothed when it has an entry and created with the
    observed score when it has none. *)
Lemma smooth_into_observed (alpha : float) (observed : list (K * float))
    (d : gmap K float) (key : K) (new_score : float) :
  List.NoDup (map fst observed) ->
  In (key, new_score) observed ->
  PersonalityAnalyzer.smooth_into alpha d observed !! key
  = Some (match d !! key with
          | Some old => ((1 - alpha) * old + alpha * new_score)%float
          | None => new_score
          end).
Proof.
  revert d. induction observed as [|[k v] rest IH]; intros d Hnd Hin; [destruct Hin|].
  cbn [map fst] in Hnd. inversion Hnd as [|? ? Hk Hrest]; subst.
  destruct Hin as [Heq | Hin].
  - inversion Heq; subst.
    change (PersonalityAnalyzer.smooth_into alpha d ((key, new_score) :: rest))
      with (PersonalityAnalyzer.smooth_into alpha
              (match d !! key with
               | Some old => <[key := ((1 - alpha) * old + alpha * new_score)%float]> d
               | None => <[key := new_score]> d
               end) rest).
    rewrite smooth_into_other by exact Hk.
    destruct (d !! key); apply lookup_insert_eq.
  - assert (Hne : k <> key).
    { intros ->. apply Hk. apply in_map_iff. exists (key, new_score). auto. }
    change (PersonalityAnalyzer.smooth_into alpha d ((k, v) :: rest))
      with (PersonalityAnalyzer.smooth_into alpha
              (match d !! k with
               | Some old => <[k := ((1 - alpha) * old + alpha * v)%float]> d
               | None => <[k := v]> d
               end) rest).
    rewrite (IH _ Hrest Hin).
    destruct (d !! k); rewrite lookup_insert_ne by exact Hne; reflexivity.
Qed.

End PersonalityAnalyzerFacts.

Lemma observed_traits (normal : PersonalityTrait -> float) (text : string) :
  map fst (PersonalityAnalyzer.analyze_text_for_personality normal text)
  = [OPENNESS; CONSCIENTIOUSNESS; EXTRAVERSION; AGREEABLENESS; NEUROTICISM;
     EMPATHY; OPTIMISM].
Proof. reflexivity. Qed.

Lemma observed_styles (text : string) :
  map fst (PersonalityAnalyzer.detect_communication_style text)
  = ["formal"; "casual"; "emotional"; "analytical"].
Proof. reflexivity. Qed.

Lemma observed_traits_NoDup (normal : PersonalityTrait -> float) (text : string) :
  List.NoDup (map fst (PersonalityAnalyzer.analyze_text_for_personality normal text)).
Proof.
  rewrite observed_traits.
  repeat (apply List.NoDup_cons; [cbn; intuition discriminate |]).
  apply List.NoDup_nil.
Qed.

Lemma observed_styles_NoDup (text : string) :
  List.NoDup (map fst (PersonalityAnalyzer.detect_communication_style text)).
Proof.
  rewrite observed_styles.
  repeat (apply List.NoDup_cons; [cbn; intuition discriminate |]).
  apply List.NoDup_nil.
Qed.

(** C7, as the code has it.  [update_personality_profile] smooths the
    observed traits and styles into the profile with alpha = 0.1 (an entry
    that is missing is created with the observed score) and raises the
    confidence by 0.05 up to 1.0; then the assignment of [datetime.now()]
    raises [NameError], since the module does not import [datetime]: the
    call never returns and [last_updated] keeps its value. *)
Theorem update_personality_profile_raises (normal : PersonalityTrait -> float)
    (now : datetime) (profile : PersonalityProfile) (text : string) :
  let '(left_as, what) :=
    PersonalityAnalyzer.update_personality_profile normal now profile text in
  what = Raised (NameError "datetime")
  /\ last_updated left_as = last_updated profile
  /\ confidence_score left_as = Py.min (confidence_score profile + 0.05)%float 1.0
  /\ Forall (fun '(trait, observed) =>
               big_five left_as !! trait
               = Some (match big_five profile !! trait with
                       | Some old => Spec.smoothed 0.9 0.1 old observed
                       | None => observed
                       end))
            (PersonalityAnalyzer.analyze_text_for_personality normal text)
  /\ Forall (fun '(style, observed) =>
               communication_preferences left_as !! style
               = Some (match communication_preferences profile !! style with
                       | Some old => Spec.smoothed 0.9 0.1 old observed
                       | None => observed
                       end))
            (PersonalityAnalyzer.detect_communication_style text).
Proof.
  unfold PersonalityAnalyzer.update_personality_profile.
  change (lookup_global PersonalityAnalyzer.module_globals "datetime")
    with (@Raised unit (NameError "datetime")).
  cbn zeta. cbn [big_five communication_preferences confidence_score last_updated].
  split; [reflexivity | split; [reflexivity | split; [reflexivity | split]]].
  - apply List.Forall_forall. intros [trait observed] Hin.
    rewrite (smooth_into_observed _ _ _ _ _ (observed_traits_NoDup normal text) Hin).
    reflexivity.
  - apply List.Forall_forall. intros [style observed] Hin.
    rewrite (smooth_into_observed _ _ _ _ _ (observed_styles_NoDup text) Hin).
    reflexivity.
Qed.

(* ================================================================== *)
(** * The conversation graph *)
(* ================================================================== *)

Section ConversationGraphFacts.

(** The three edges out of [mood_check] are tried in the order they were
    added, and the first guard that holds decides. *)
Lemma get_next_state_mood_check (s : ARIAState) :
  let mood := mood_score (therapeutic_assessment s) in
  let anxiety := anxiety_level (therapeutic_assessment s) in
  ConversationGraph.get_next_state "mood_check" s
  = Returned
      (if (mood <? 4.0)%float || (7.0 <? anxiety)%float
       then "therapeutic_mode"
       else if ((4.0 <=? mood)%float && (mood <=? 7.0)%float) && (anxiety <=? 7.0)%float
       then "companion_mode"
       else if ConversationMode_beq (conversation_mode s) CRISIS
       then "crisis_intervention"
       else "mood_check").
Proof.
  cbn zeta. unfold ConversationGraph.get_next_state.
  change (ConversationGraph.successors "mood_check")
    with (Returned [("therapeutic_mode", "distress_detected");
                    ("companion_mode", "neutral_mood");
                    ("crisis_intervention", "crisis_detected")]).
  cbn [ConversationGraph.first_match].
  change (ConversationGraph._evaluate_transition_condition "distress_detected" s)
    with ((mood_score (therapeutic_assessment s) <? 4.0)%float
          || (7.0 <? anxiety_level (therapeutic_assessment s))%float).
  change (ConversationGraph._evaluate_transition_condition "neutral_mood" s)
    with (((4.0 <=? mood_score (therapeutic_assessment s))%float
           && (mood_score (therapeutic_assessment s) <=? 7.0)%float)
          && (anxiety_level (therapeutic_assessment s) <=? 7.0)%float).
  change (ConversationGraph._evaluate_transition_condition "crisis_detected" s)
    with (ConversationMode_beq (conversation_mode s) CRISIS).
  repeat match goal with |- context [if ?b then _ else _] => destruct b end;
    reflexivity.
Qed.

Lemma ConversationMode_beq_CRISIS (m : ConversationMode) :
  ConversationMode_beq m CRISIS = true <-> m = CRISIS.
Proof. destruct m; simpl; split; congruence. Qed.

(** C6, as the code has it.  From [mood_check] with mood 8.0, anxiety 2.0
    and a mode other than CRISIS, [get_next_state] stays at [mood_check]:
    the guards are tried in declared order, and [neutral_mood] asks for
    4.0 <= mood <= 7.0.  With the distress guard false and the neutral guard
    true (mood in [4, 7], anxiety at most 7) it returns [companion_mode]. *)
Theorem next_stage_from_mood_check (s : ARIAState) :
  let mood := mood_score (therapeutic_assessment s) in
  let anxiety := anxiety_level (therapeutic_assessment s) in
  (mood = 8.0%float -> anxiety = 2.0%float -> conversation_mode s <> CRISIS ->
   ConversationGraph.get_next_state "mood_check" s = Returned "mood_check")
  /\ ((mood <? 4.0)%float || (7.0 <? anxiety)%float = false ->
      ((4.0 <=? mood)%float && (mood <=? 7.0)%float) && (anxiety <=? 7.0)%float = true ->
      ConversationGraph.get_next_state "mood_check" s = Returned "companion_mode").
Proof.
  cbn zeta. rewrite get_next_state_mood_check. split.
  - intros -> -> Hmode.
    destruct (ConversationMode_beq (conversation_mode s) CRISIS) eqn:E.
    + apply ConversationMode_beq_CRISIS in E. contradiction.
    + reflexivity.
  - intros -> ->. reflexivity.
Qed.

(** The claim of C6 fails at mood 8.0 and anxiety 2.0 in companion mode:
    the next stage is not [companion_mode]. *)
Lemma next_stage_mood_8_is_not_companion :
  let s := Samples.turn "How are you?" Samples.earlier_turn 8.0 2.0 0.5 COMPANION in
  mood_score (therapeutic_assessment s) = 8.0%float
  /\ anxiety_level (therapeutic_assessment s) = 2.0%float
  /\ conversation_mode s <> CRISIS
  /\ ConversationGraph.get_next_state "mood_check" s <> Returned "companion_mode".
Proof.
  cbn zeta. split; [reflexivity | split; [reflexivity | split; [discriminate|]]].
  vm_compute. discriminate.
Qed.

(** The amended C6 at two states: mood 8.0 stays at [mood_check], mood 6.0
    moves to [companion_mode]. *)
Lemma next_stage_from_mood_check_witness :
  ConversationGraph.get_next_state "mood_check"
    (Samples.turn "How are you?" Samples.earlier_turn 8.0 2.0 0.5 COMPANION)
  = Returned "mood_check"
  /\ ConversationGraph.get_next_state "mood_check"
       (Samples.turn "How are you?" Samples.earlier_turn 6.0 2.0 0.5 COMPANION)
     = Returned "companion_mode".
Proof.
  split.
  - apply (proj1 (next_stage_from_mood_check
                    (Samples.turn "How are you?" Samples.earlier_turn 8.0 2.0 0.5 COMPANION)));
      [reflexivity | reflexivity | discriminate].
  - apply (proj2 (next_stage_from_mood_check
                    (Samples.turn "How are you?" Samples.earlier_turn 6.0 2.0 0.5 COMPANION)));
      reflexivity.
Defined.

(** From [initial] the only edge leads to [greeting], under the guard
    [first_message]. *)
Lemma get_next_state_initial (s : ARIAState) :
  ConversationGraph.get_next_state "initial" s
  = Returned (if (Py.len (conversation_history s) =? 0)%Z
              then "greeting" else "initial").
Proof.
  unfold ConversationGraph.get_next_state.
  change (ConversationGraph.successors "initial")
    with (Returned [("greeting", "first_message")]).
  cbn [ConversationGraph.first_match].
  change (ConversationGraph._evaluate_transition_condition "first_message" s)
    with (Py.len (conversation_history s) =? 0)%Z.
  destruct (Py.len (conversation_history s) =? 0)%Z; reflexivity.
Qed.

End ConversationGraphFacts.

(* ================================================================== *)
(** * The workflow *)
(* ================================================================== *)

Section WorkflowFacts.

Import ARIAWorkflow Outputs.

(** Unfolds the plumbing of [M]. *)
Ltac unfold_M :=
  unfold mbind, M_bind, mret, M_ret, bind, lift, ret, raise, emit in *.

(** ** What each node does *)

Lemma determine_mode_action (self : Self) (state : ARIAState) (log : list Event) :
  _determine_mode self state log
  = match call_detect_crisis (therapeutic_analyzer self) (current_message state) with
    | Raised e => (Raised e, log)
    | Returned (is_crisis, _) =>
        (Returned
           (set_conversation_mode
              (Spec.ModeSelector is_crisis
                 (mood_score (therapeutic_assessment state))
                 (anxiety_level (therapeutic_assessment state))
                 (confidence_score (personality_profile state))
                 (current_message state))
              state),
         log)
    end.
Proof.
  unfold _determine_mode, Spec.ModeSelector, Py.any_in. unfold_M.
  destruct (call_detect_crisis _ _) as [[is_crisis risk] | e]; [|reflexivity].
  destruct is_crisis; [reflexivity|].
  repeat match goal with |- context [if ?b then _ else _] => destruct b end;
    reflexivity.
Qed.

Lemma update_therapeutic_action (sv : Services) (state : ARIAState) (log : list Event) :
  _update_therapeutic (__init__ sv) state log = (Returned (assessed state), log).
Proof. reflexivity. Qed.

Lemma get_context_action (self : Self) (state : ARIAState) (log : list Event) :
  _get_context self state log = (Returned (with_context state), log).
Proof.
  unfold _get_context, with_context, stage_of. unfold_M.
  rewrite get_next_state_initial. reflexivity.
Qed.

Lemma generate_response_action (self : Self) (state : ARIAState) (log : list Event) :
  _generate_response self state log = (Returned (generated self state), log).
Proof.
  unfold _generate_response, generated. unfold_M.
  destruct (llm_invoke (services self) state); reflexivity.
Qed.

Lemma apply_seal_action (self : Self) (state : ARIAState) (log : list Event) :
  _apply_seal_adaptation self state log = (Returned (after_seal self state), log).
Proof.
  unfold _apply_seal_adaptation, after_seal. unfold_M.
  destruct (0 <? Py.len (conversation_history state))%Z; [|reflexivity].
  cbn zeta. destruct (bool_decide _); reflexivity.
Qed.

(** [_update_memory] hands the turn to the memory system and then fails on
    [datetime], which [workflow.py] does not import. *)
Lemma update_memory_action (self : Self) (state : ARIAState) (log : list Event) :
  _update_memory self state log
  = (Raised (NameError "datetime"), (log ++ [recorded_turn state])%list).
Proof. reflexivity. Qed.

(** [update_personality_profile] always ends in [NameError]. *)
Lemma update_personality_action (self : Self) (state : ARIAState) (log : list Event) :
  _update_personality self state log = (Raised (NameError "datetime"), log).
Proof. reflexivity. Qed.

(** One step of a run. *)
Lemma run_step (self : Self) (limit : nat) (n : Node) (state : ARIAState)
    (log : list Event) :
  run self (S limit) n state log
  = match node_action self n state log with
    | (Raised e, log') => mkRun [(n, state)] (Raised e) log'
    | (Returned state', log') =>
        match successor n state' with
        | END => mkRun [(n, state)] (Returned state') log'
        | To n' =>
            let r := run self limit n' state' log' in
            mkRun ((n, state) :: visited r) (result r) (events r)
        end
    end.
Proof. reflexivity. Qed.

(** ** Runs of the graph *)

(** From [generate_response] a run goes on to [apply_seal] and
    [update_memory], where it logs the turn and ends in [NameError]. *)
Lemma run_from_generate_response (self : Self) (limit : nat) (state : ARIAState)
    (log : list Event) :
  let s1 := generated self state in
  let s2 := after_seal self s1 in
  run self (S (S (S limit))) generate_response state log
  = mkRun [(generate_response, state); (apply_seal, s1); (update_memory, s2)]
          (Raised (NameError "datetime")) (log ++ [recorded_turn s2])%list.
Proof.
  cbn zeta. rewrite run_step. cbn [node_action].
  rewrite generate_response_action. cbn [successor].
  rewrite run_step. cbn [node_action]. rewrite apply_seal_action. cbn [successor].
  rewrite run_step. cbn [node_action]. rewrite update_memory_action.
  reflexivity.
Qed.

Lemma run_from_get_context (self : Self) (limit : nat) (state : ARIAState)
    (log : list Event) :
  let s0 := with_context state in
  let s1 := generated self s0 in
  let s2 := after_seal self s1 in
  run self (S (S (S (S limit)))) get_context state log
  = mkRun [(get_context, state); (generate_response, s0); (apply_seal, s1);
           (update_memory, s2)]
          (Raised (NameError "datetime")) (log ++ [recorded_turn s2])%list.
Proof.
  cbn zeta. rewrite run_step. cbn [node_action].
  rewrite get_context_action. cbn [successor].
  rewrite run_from_generate_response. reflexivity.
Qed.

(** ** The fields the later nodes leave alone *)

Lemma generated_frame (self : Self) (state : ARIAState) :
  graph_context (generated self state) = graph_context state
  /\ conversation_history (generated self state) = conversation_history state
  /\ conversation_mode (generated self state) = conversation_mode state
  /\ therapeutic_assessment (generated self state) = therapeutic_assessment state
  /\ current_message (generated self state) = current_message state
  /\ session_id (generated self state) = session_id state.
Proof. unfold generated. destruct (llm_invoke _ _); repeat split. Qed.

Lemma after_seal_frame (self : Self) (state : ARIAState) :
  graph_context (after_seal self state) = graph_context state
  /\ conversation_history (after_seal self state) = conversation_history state
  /\ response (after_seal self state) = response state
  /\ current_message (after_seal self state) = current_message state
  /\ session_id (after_seal self state) = session_id state.
Proof.
  unfold after_seal. destruct (0 <? Py.len _)%Z; [|repeat split].
  cbn zeta. destruct (bool_decide _); repeat split.
Qed.

Lemma ModeSelector_crisis_iff (is_crisis : bool) (mood anxiety trust : float)
    (message : string) :
  Spec.ModeSelector is_crisis mood anxiety trust message = CRISIS <-> is_crisis = true.
Proof.
  unfold Spec.ModeSelector. destruct is_crisis; [tauto|].
  repeat match goal with |- context [if ?b then _ else _] => destruct b end;
    split; discriminate.
Qed.

(** ** Mode selection *)

Lemma crisis_phrase_detected (text phrase : string) :
  In phrase TherapeuticAnalyzer.crisis_indicators ->
  Spec.substring_of phrase (Py.lower text) ->
  fst (TherapeuticAnalyzer.detect_crisis text) = true.
Proof.
  intros Hin Hsub. unfold TherapeuticAnalyzer.detect_crisis. cbn [fst].
  rewrite count_in_hit_count. apply hit_count_pos_iff.
  exists phrase. split; [exact Hin | apply contains_iff, Hsub].
Qed.

(** C1. [_determine_mode] selects the mode by the priority chain: CRISIS
    when [detect_crisis] says so, else THERAPEUTIC when mood < 4.0 or
    anxiety > 7.0, else ASSESSMENT when the profile's confidence is below
    0.3, else COACHING when the lower-cased message contains "goal",
    "improve" or "achieve", else COMPANION.  It neither raises nor logs, the
    mode the state held before plays no part, and a message with a crisis
    phrase gives CRISIS whatever the mood and the keywords are. *)
Theorem mode_selection_priority (sv : Services) (state : ARIAState) (log : list Event) :
  let message := current_message state in
  let mood := mood_score (therapeutic_assessment state) in
  let anxiety := anxiety_level (therapeutic_assessment state) in
  let trust := confidence_score (personality_profile state) in
  let is_crisis := fst (TherapeuticAnalyzer.detect_crisis message) in
  let selected := Spec.ModeSelector is_crisis mood anxiety trust message in
  _determine_mode (__init__ sv) state log
    = (Returned (set_conversation_mode selected state), log)
  /\ (forall previous,
        _determine_mode (__init__ sv) (set_conversation_mode previous state) log
        = (Returned (set_conversation_mode selected state), log))
  /\ (forall phrase,
        In phrase TherapeuticAnalyzer.crisis_indicators ->
        Spec.substring_of phrase (Py.lower message) ->
        selected = CRISIS).
Proof.
  cbn zeta. split; [|split].
  - rewrite determine_mode_action. cbn [__init__ therapeutic_analyzer
      TherapeuticAnalyzer_new call_detect_crisis].
    destruct (TherapeuticAnalyzer.detect_crisis (current_message state)); reflexivity.
  - intros previous. rewrite determine_mode_action. cbn [__init__ therapeutic_analyzer
      TherapeuticAnalyzer_new call_detect_crisis].
    destruct state as [u se message h pp ta m cv mc sa gc r c na].
    unfold set_conversation_mode.
    cbn [current_message therapeutic_assessment personality_profile user_id
         session_id conversation_history context_vectors memory_context
         seal_adaptations graph_context response confidence next_action].
    destruct (TherapeuticAnalyzer.detect_crisis message); reflexivity.
  - intros phrase Hin Hsub.
    rewrite (crisis_phrase_detected _ _ Hin Hsub). reflexivity.
Qed.

(** The priority test of the specification: mood 2.0, a crisis phrase and
    the coaching keywords together give CRISIS. *)
Example crisis_beats_coaching :
  fst (_determine_mode (__init__ (Samples.services_with (Returned "I hear you.")))
         (Samples.turn "I feel hopeless, I will never achieve my goal" []
                       2.0 5.0 0.5 COMPANION) [])
  = Returned
      (set_conversation_mode CRISIS
         (Samples.turn "I feel hopeless, I will never achieve my goal" []
                       2.0 5.0 0.5 COMPANION)).
Proof. vm_compute. reflexivity. Qed.

(** The coaching scenario of the specification: mood 6.0, anxiety 3.0 and
    confidence 0.5 with the word "improve" give COACHING. *)
Example coaching_scenario :
  fst (_determine_mode (__init__ (Samples.services_with (Returned "Let us plan.")))
         (Samples.turn "I'd love to improve my productivity and hit my goals" []
                       6.0 3.0 0.5 COMPANION) [])
  = Returned
      (set_conversation_mode COACHING
         (Samples.turn "I'd love to improve my productivity and hit my goals" []
                       6.0 3.0 0.5 COMPANION)).
Proof. vm_compute. reflexivity. Qed.

(** ** A raising crisis detection *)

(** C2, as the code has it.  When crisis detection raises during mode
    determination, [_determine_mode] raises the same exception and selects
    no mode; the run ends at [determine_mode] with that exception, without
    entering [generate_response]; and the [try] statement of
    [process_message] answers a run that raised with the fixed apology. *)
Theorem detection_failure_propagates (self : Self) (state : ARIAState)
    (log : list Event) (e : exn) :
  call_detect_crisis (therapeutic_analyzer self) (current_message state) = Raised e ->
  _determine_mode self state log = (Raised e, log)
  /\ (forall limit,
        run self (S limit) determine_mode state log
        = mkRun [(determine_mode, state)] (Raised e) log)
  /\ (forall initial_state log0 e0,
        result (ainvoke self initial_state log0) = Raised e0 ->
        fst (process_message_try self initial_state log0) = Returned apology).
Proof.
  intros Hraise.
  assert (Hnode : _determine_mode self state log = (Raised e, log))
    by (rewrite determine_mode_action, Hraise; reflexivity).
  split; [exact Hnode | split].
  - intros limit. rewrite run_step. cbn [node_action]. rewrite Hnode. reflexivity.
  - intros initial_state log0 e0 Hrun. unfold process_message_try.
    rewrite Hrun. reflexivity.
Qed.

(** The claim of C2 fails for a workflow whose crisis detection raises: the
    run from [determine_mode] ends with the exception, no state in CRISIS
    mode comes out of it and [generate_response] is not entered. *)
Lemma failing_detection_is_not_a_crisis_turn :
  let self := Samples.workflow_with_failing_detection in
  let state := Samples.turn "I feel hopeless" Samples.earlier_turn 5.0 5.0 0.5 COMPANION in
  let r := run self recursion_limit determine_mode state [] in
  call_detect_crisis (therapeutic_analyzer self) (current_message state)
    = Raised (ServiceError "crisis detection failed")
  /\ result r = Raised (ServiceError "crisis detection failed")
  /\ ~ In generate_response (path r)
  /\ (forall final, result r = Returned final -> conversation_mode final <> CRISIS).
Proof.
  vm_compute. split; [reflexivity | split; [reflexivity | split]].
  - intros [H | []]. discriminate.
  - intros final H. discriminate.
Qed.

Lemma detection_failure_propagates_witness :
  let self := Samples.workflow_with_failing_detection in
  let state := Samples.turn "I feel hopeless" Samples.earlier_turn 5.0 5.0 0.5 COMPANION in
  call_detect_crisis (therapeutic_analyzer self) (current_message state)
    = Raised (ServiceError "crisis detection failed")
  /\ _determine_mode self state []
     = (Raised (ServiceError "crisis detection failed"), []).
Proof.
  split; [reflexivity|].
  apply (detection_failure_propagates
           Samples.workflow_with_failing_detection
           (Samples.turn "I feel hopeless" Samples.earlier_turn 5.0 5.0 0.5 COMPANION)
           [] (ServiceError "crisis detection failed")).
  reflexivity.
Defined.

(** ** Routing after the mode is determined *)

(** C4. After [determine_mode] the graph goes to [generate_response] when
    the mode is CRISIS and to [get_context], then [generate_response], for
    the four other modes.  On a turn whose message is a crisis text the run
    from [update_therapeutic] on enters [determine_mode],
    [generate_response], [apply_seal] and [update_memory] and never
    [get_context]: [graph_context] stays as the turn found it, one risk
    factor is appended to the assessment, and the response of the model (or
    the fallback) is in the state and in the turn handed to the memory
    system.  On any other turn the run passes through [get_context] right
    before [generate_response]. *)
Theorem crisis_turn_skips_context (sv : Services) (state : ARIAState) (log : list Event) :
  let self := __init__ sv in
  let r := run self recursion_limit update_therapeutic state log in
  let '(is_crisis, risk_level) := TherapeuticAnalyzer.detect_crisis (current_message state) in
  (forall s, successor determine_mode s
             = if ConversationMode_beq (conversation_mode s) CRISIS
               then To generate_response else To get_context)
  /\ (forall s, successor get_context s = To generate_response)
  /\ path r
     = (if is_crisis
        then [update_therapeutic; determine_mode; generate_response;
              apply_seal; update_memory]
        else [update_therapeutic; determine_mode; get_context; generate_response;
              apply_seal; update_memory])
  /\ Forall (fun '(n, s) =>
               n = generate_response ->
               (conversation_mode s = CRISIS <-> is_crisis = true)) (visited r)
  /\ (is_crisis = true ->
      Forall (fun '(_, s) => graph_context s = graph_context state) (visited r)
      /\ exists s_gen s_mem,
           In (generate_response, s_gen) (visited r)
           /\ conversation_mode s_gen = CRISIS
           /\ risk_factors (therapeutic_assessment s_gen)
              = (risk_factors (therapeutic_assessment state) ++ [risk_tag risk_level])%list
           /\ In (update_memory, s_mem) (visited r)
           /\ response s_mem
              = match llm_invoke sv s_gen with
                | Returned content => content
                | Raised _ => fallback_response
                end
           /\ events r = (log ++ [recorded_turn s_mem])%list).
Proof.
  cbn zeta.
  pose proof (risk_factors_updated
                (therapeutic_assessment state) (current_message state)) as Hrisk.
  destruct (TherapeuticAnalyzer.detect_crisis (current_message state))
    as [is_crisis risk_level] eqn:Hdet.
  cbn [fst snd] in Hrisk.
  split; [intros s; cbn [successor]; unfold _route_conversation_mode;
          destruct (conversation_mode s); reflexivity|].
  split; [reflexivity|].
  unfold recursion_limit. rewrite run_step. cbn [node_action].
  rewrite update_therapeutic_action. cbn [successor].
  rewrite run_step. cbn [node_action]. rewrite determine_mode_action.
  cbn [__init__ therapeutic_analyzer TherapeuticAnalyzer_new call_detect_crisis].
  replace (current_message (assessed state)) with (current_message state) by reflexivity.
  rewrite Hdet.
  set (selected := Spec.ModeSelector is_crisis _ _ _ _).
  assert (Hsel : selected = CRISIS <-> is_crisis = true)
    by apply ModeSelector_crisis_iff.
  cbn [successor]. unfold _route_conversation_mode.
  replace (conversation_mode (set_conversation_mode selected (assessed state)))
    with selected by reflexivity.
  set (s2 := set_conversation_mode selected (assessed state)).
  destruct is_crisis.
  - assert (Hs : selected = CRISIS) by (apply Hsel; reflexivity).
    rewrite Hs. cbn [conditional_edges]. rewrite run_from_generate_response.
    cbn zeta. cbn [visited result events path map fst].
    destruct (generated_frame (__init__ sv) s2) as (Hg1 & _ & _ & _ & _ & _).
    destruct (after_seal_frame (__init__ sv) (generated (__init__ sv) s2))
      as (Ha1 & _ & Ha3 & _ & _).
    assert (Hmode : conversation_mode s2 = CRISIS) by (subst s2; rewrite Hs; reflexivity).
    split; [reflexivity|]. split.
    { repeat (apply List.Forall_cons;
                [first [intros H; discriminate H | intros _; exact Hsel] |]).
      apply List.Forall_nil. }
    intros _. split.
    + repeat constructor; try reflexivity.
      * rewrite Hg1. reflexivity.
      * rewrite Ha1, Hg1. reflexivity.
    + exists s2, (after_seal (__init__ sv) (generated (__init__ sv) s2)).
      split; [right; right; left; reflexivity|].
      split; [exact Hmode|].
      split; [exact Hrisk|].
      split; [right; right; right; right; left; reflexivity|].
      split; [|reflexivity].
      rewrite Ha3. unfold generated. cbn [__init__ services].
      destruct (llm_invoke sv s2); reflexivity.
  - assert (Hs : selected <> CRISIS) by (intros H; apply Hsel in H; discriminate).
    assert (Hedge : conditional_edges selected = To get_context)
      by (destruct selected; try reflexivity; contradiction).
    rewrite Hedge. rewrite run_from_get_context.
    cbn zeta. cbn [visited result events path map fst].
    split; [reflexivity|]. split; [|intros H; discriminate].
    repeat (apply List.Forall_cons;
              [first [intros H; discriminate H | intros _; exact Hsel] |]).
    apply List.Forall_nil.
Qed.

(** ** A failing generation *)

(** C9. A failure of the model call does not end the run: the response
    becomes the fixed fallback text with confidence 0.3, the run goes on
    through [apply_seal] and [update_memory], and the turn is handed to the
    memory system with the fallback as its response.  When the call
    succeeds, its text is the response, with confidence 0.8. *)
Theorem generation_failure_falls_back (self : Self) (state : ARIAState)
    (log : list Event) :
  let r := run self recursion_limit generate_response state log in
  exists s_gen s_mem,
    _generate_response self state log = (Returned s_gen, log)
    /\ visited r
       = [(generate_response, state); (apply_seal, s_gen); (update_memory, s_mem)]
    /\ response s_mem = response s_gen
    /\ (exists metadata,
          events r
          = (log ++ [add_conversation (session_id state) (current_message state)
                       (response s_gen) metadata])%list)
    /\ match llm_invoke (services self) state with
       | Raised _ => response s_gen = fallback_response /\ confidence s_gen = 0.3%float
       | Returned content => response s_gen = content /\ confidence s_gen = 0.8%float
       end.
Proof.
  cbn zeta. unfold recursion_limit. rewrite run_from_generate_response. cbn zeta.
  exists (generated self state), (after_seal self (generated self state)).
  destruct (generated_frame self state) as (_ & _ & _ & _ & Hm & Hs).
  destruct (after_seal_frame self (generated self state)) as (_ & _ & Hr & Hm' & Hs').
  split; [apply generate_response_action|].
  split; [reflexivity|]. split; [exact Hr|]. split.
  - eexists. cbn [events]. unfold recorded_turn.
    rewrite Hs', Hs, Hm', Hm, Hr. reflexivity.
  - unfold generated. destruct (llm_invoke (services self) state); split; reflexivity.
Qed.

(** ** The stage in [graph_context] *)

(** A node that returns leaves the history alone, and leaves
    [graph_context] alone unless it is [get_context]. *)
Lemma node_action_frame (self : Self) (n : Node) (s s' : ARIAState)
    (log log' : list Event) :
  node_action self n s log = (Returned s', log') ->
  conversation_history s' = conversation_history s
  /\ (graph_context s' = graph_context s \/ s' = with_context s).
Proof.
  destruct n; cbn [node_action].
  - unfold _analyze_input. unfold_M.
    destruct (get_contextual_embeddings _ _ _); intros H; inversion H; subst.
    split; [reflexivity | left; reflexivity].
  - rewrite update_personality_action. discriminate.
  - unfold _update_therapeutic. unfold_M.
    destruct (call_update_therapeutic_assessment _ _ _); intros H; inversion H; subst.
    split; [reflexivity | left; reflexivity].
  - rewrite determine_mode_action.
    destruct (call_detect_crisis _ _) as [[is_crisis risk] | e];
      intros H; inversion H; subst.
    split; [reflexivity | left; reflexivity].
  - rewrite get_context_action. intros H; inversion H; subst.
    split; [reflexivity | right; reflexivity].
  - rewrite generate_response_action. intros H; inversion H; subst.
    destruct (generated_frame self s) as (Hg & Hh & _). auto.
  - rewrite apply_seal_action. intros H; inversion H; subst.
    destruct (after_seal_frame self s) as (Hg & Hh & _). auto.
  - rewrite update_memory_action. discriminate.
Qed.

(** The states of a run hold the [graph_context] the run started with or
    the stage computed from the history. *)
Lemma run_stage_invariant (self : Self) (origin : ARIAState) (limit : nat) :
  forall (n : Node) (s : ARIAState) (log : list Event),
    let known s :=
      graph_context s = graph_context origin
      \/ graph_context s !! "current_state" = Some (stage_of origin) in
    conversation_history s = conversation_history origin ->
    known s ->
    Forall (fun '(_, s) => known s) (visited (run self limit n s log))
    /\ (forall final, result (run self limit n s log) = Returned final -> known final).
Proof.
  cbn zeta. induction limit as [|limit IH]; intros n s log Hh Hk.
  - cbn. split; [constructor | discriminate].
  - rewrite run_step.
    destruct (node_action self n s log) as [[s' | e] log'] eqn:Hact.
    + destruct (node_action_frame _ _ _ _ _ _ Hact) as [Hh' Hg'].
      assert (Hk' : graph_context s' = graph_context origin
                    \/ graph_context s' !! "current_state" = Some (stage_of origin)).
      { destruct Hg' as [Hg' | ->].
        - rewrite Hg'. exact Hk.
        - right. unfold with_context, stage_of. rewrite Hh. reflexivity. }
      destruct (successor n s') as [n' |].
      * cbn zeta. cbn [visited result].
        destruct (IH n' s' log' (eq_trans Hh' Hh) Hk') as [Hv Hr].
        split; [apply List.Forall_cons; assumption | exact Hr].
      * cbn [visited result].
        split; [apply List.Forall_cons; [exact Hk | apply List.Forall_nil]|].
        intros final H. inversion H; subst. exact Hk'.
    + cbn [visited result].
      split; [apply List.Forall_cons; [exact Hk | apply List.Forall_nil]
             | discriminate].
Qed.

(** C10. [_get_context] asks the conversation graph for the stage after
    ["initial"], whatever was reached before: the stage it stores is
    ["greeting"] exactly when the history is empty and ["initial"]
    otherwise.  So in every state of every run, [graph_context] is as the
    run found it or holds one of these two stages. *)
Theorem stored_stage_is_greeting_or_initial (self : Self) (state : ARIAState)
    (log : list Event) :
  let stage := stage_of state in
  let known s :=
    graph_context s = graph_context state
    \/ graph_context s !! "current_state" = Some stage in
  (exists context,
      _get_context self state log = (Returned (set_graph_context context state), log)
      /\ context !! "current_state" = Some stage)
  /\ ConversationGraph.get_next_state "initial" state = Returned stage
  /\ (stage = "greeting" <-> conversation_history state = [])
  /\ (stage = "initial" <-> conversation_history state <> [])
  /\ (forall limit n,
        Forall (fun '(_, s) => known s) (visited (run self limit n state log))
        /\ (forall final,
              result (run self limit n state log) = Returned final -> known final)).
Proof.
  cbn zeta. split; [|split; [|split; [|split]]].
  - eexists. split; [apply get_context_action | reflexivity].
  - apply get_next_state_initial.
  - unfold stage_of, Py.len. destruct (conversation_history state) as [|m h].
    + split; reflexivity.
    + change (Z.of_nat (List.length (m :: h)) =? 0)%Z with false.
      split; discriminate.
  - unfold stage_of, Py.len. destruct (conversation_history state) as [|m h].
    + split; [discriminate | intros H; contradiction].
    + change (Z.of_nat (List.length (m :: h)) =? 0)%Z with false.
      split; [discriminate | reflexivity].
  - intros limit n. apply run_stage_invariant; [reflexivity | left; reflexivity].
Qed.

(** ** The names the workflow module does not bind *)

(** [process_message] builds the initial state with [PersonalityProfile()],
    a name [workflow.py] does not import: every call raises [NameError]
    before the [try] statement is reached. *)
Theorem process_message_raises (self : Self) (user_message session user : string)
    (log : list Event) :
  process_message self user_message session user log
  = (Raised (NameError "PersonalityProfile"), log).
Proof. reflexivity. Qed.

(** A run from the entry point never gets past [update_personality]: the
    analyzer's [NameError] ends it (unless the embedding call raised
    first), so no run from the entry point returns a state. *)
Theorem ainvoke_stops_at_update_personality (self : Self) (state : ARIAState)
    (log : list Event) :
  let r := ainvoke self state log in
  match get_contextual_embeddings (services self)
          (user_id state) (current_message state) with
  | Raised e => path r = [analyze_input] /\ result r = Raised e
  | Returned _ =>
      path r = [analyze_input; update_personality]
      /\ result r = Raised (NameError "datetime")
  end
  /\ events r = log.
Proof.
  cbn zeta. unfold ainvoke, recursion_limit, entry_point.
  rewrite run_step. cbn [node_action]. unfold _analyze_input. unfold_M.
  destruct (get_contextual_embeddings _ _ _) as [v | e].
  - cbn [successor]. rewrite run_step. cbn [node_action].
    rewrite update_personality_action. split; [split|]; reflexivity.
  - split; [split|]; reflexivity.
Qed.

(** [_update_memory] hands the turn to the memory system and then raises
    [NameError] on [datetime]: the conversation vector is never stored. *)
Theorem update_memory_records_then_raises (self : Self) (state : ARIAState)
    (log : list Event) :
  _update_memory self state log
  = (Raised (NameError "datetime"),
     (log ++ [add_conversation (session_id state) (current_message state)
                (response state)
                {| md_conversation_mode := ConversationMode_value (conversation_mode state);
                   md_confidence := confidence state;
                   md_personality_confidence :=
                     confidence_score (personality_profile state);
                   md_mood_score := mood_score (therapeutic_assessment state);
                   md_anxiety_level := anxiety_level (therapeutic_assessment state) |}])%list).
Proof. reflexivity. Qed.

End WorkflowFacts.

(* ================================================================== *)
(** * Further properties of the analyzers *)
(* ================================================================== *)

Section FloatOrder.



End FloatOrder.

Section AnalyzerProperties.


Lemma style_score_of_count :
  forall z, (0 <= z <= Z.of_nat 5)%Z ->
    let score := (Py.float_of_int z / Py.float_of_int 5)%float in
    Spec.within 0.0 1.0 score
    /\ (score = 0.0%float <-> z = 0%Z)
    /\ (score = 1.0%float <-> z = 5%Z).
Proof.
  apply (for_each_upto 5); cbn [seq map];
    repeat (apply List.Forall_cons;
              [vm_compute; split; [split; reflexivity|];
               split; split; intros H; first [reflexivity | discriminate H] |]);
    apply List.Forall_nil.
Qed.

(** The score of a communication style is hits / 5 for the number of its
    five keywords that occur in the lower-cased text: it lies in [0, 1], is
    0.0 exactly when none occurs and 1.0 exactly when all five occur.  The
    styles come in the order formal, casual, emotional, analytical.  The
    lower-cased text is [Py.lower text], where a Kelvin sign gives the [k]
    of "thank you" and "think"
    (see [detect_communication_style_kelvin_sign]). *)
Theorem communication_style_scores (text : string) :
  Forall2 (fun '(style, keywords) '(style', score) =>
             let hits := Spec.hit_count keywords (Py.lower text) in
             style' = style
             /\ score = (Py.float_of_int hits / 5.0)%float
             /\ Spec.within 0.0 1.0 score
             /\ (score = 0.0%float <-> hits = 0%Z)
             /\ (score = 1.0%float <-> hits = 5%Z))
          PersonalityAnalyzer.communication_patterns
          (PersonalityAnalyzer.detect_communication_style text).
Proof.
  unfold PersonalityAnalyzer.detect_communication_style. cbn zeta.
  assert (Hlen : List.Forall (fun '(_, keywords) => Py.len keywords = Z.of_nat 5)
                   PersonalityAnalyzer.communication_patterns)
    by (repeat constructor).
  induction PersonalityAnalyzer.communication_patterns as [|[style keywords] rest IH].
  - constructor.
  - inversion Hlen as [|? ? Hk Hrest]; subst. cbn [map]. constructor; [|apply IH, Hrest].
    cbn zeta. rewrite count_in_hit_count.
    pose proof (hit_count_bounds keywords (Py.lower text)) as Hb. rewrite Hk in Hb.
    rewrite Hk.
    destruct (style_score_of_count _ Hb) as (Hw & H0 & H1).
    split; [reflexivity | split; [reflexivity | auto]].
Qed.

End AnalyzerProperties.

Section CopingProperties.

(** The nineteen entries of the taxonomy, each with the phrase that
    triggers it. *)
Lemma identify_as_filter (text : string) :
  TherapeuticAnalyzer.identify_coping_strategies text
  = map snd
      (List.filter (fun '(strategy, _) => Py.contains strategy (Py.lower text))
         (flat_map (fun '(category, strategies) =>
                      map (fun strategy => (strategy, category ++ ": " ++ strategy))
                          strategies)
                   TherapeuticAnalyzer.coping_strategies)).
Proof.
  unfold TherapeuticAnalyzer.identify_coping_strategies. cbn zeta.
  induction TherapeuticAnalyzer.coping_strategies as [|[category strategies] rest IH];
    [reflexivity|].
  cbn [flat_map]. rewrite List.filter_app, List.map_app, IH. f_equal.
  clear IH. induction strategies as [|strategy more IHs]; [reflexivity|].
  cbn [flat_map map List.filter]. rewrite IHs.
  destruct (Py.contains strategy (Py.lower text)); reflexivity.
Qed.

Lemma NoDup_map_filter {A B} (f : A -> B) (p : A -> bool) (l : list A) :
  List.NoDup (map f l) -> List.NoDup (map f (List.filter p l)).
Proof.
  induction l as [|a l IH]; cbn [map List.filter]; intros Hnd; [constructor|].
  inversion Hnd as [|? ? Hnot Hrest]; subst.
  destruct (p a); [|apply IH, Hrest].
  cbn [map]. constructor; [|apply IH, Hrest].
  intros Hin. apply Hnot. apply in_map_iff in Hin. destruct Hin as [x [Hx Hin]].
  apply filter_In in Hin. apply in_map_iff. exists x. tauto.
Qed.

(** [identify_coping_strategies] returns "category: phrase" exactly for the
    phrases of the taxonomy that occur in the lower-cased text, each once;
    a text with none of them gives the empty list.  The lower-cased text is
    [Py.lower text], where a Kelvin sign gives the [k] of "walk", "talk"
    and "think differently"
    (see [identify_coping_strategies_kelvin_sign]). *)
Theorem identify_coping_strategies_spec (text : string) :
  (forall entry,
      In entry (TherapeuticAnalyzer.identify_coping_strategies text)
      <-> exists category strategies strategy,
            In (category, strategies) TherapeuticAnalyzer.coping_strategies
            /\ In strategy strategies
            /\ Spec.substring_of strategy (Py.lower text)
            /\ entry = category ++ ": " ++ strategy)
  /\ List.NoDup (TherapeuticAnalyzer.identify_coping_strategies text)
  /\ (List.length (TherapeuticAnalyzer.identify_coping_strategies text) <= 19)%nat.
Proof.
  split; [|split].
  - intros entry. unfold TherapeuticAnalyzer.identify_coping_strategies. cbn zeta.
    rewrite in_flat_map. split.
    + intros [[category strategies] [Hc Hin]]. apply in_flat_map in Hin.
      destruct Hin as [strategy [Hs Hin]].
      destruct (Py.contains strategy (Py.lower text)) eqn:E; [|destruct Hin].
      destruct Hin as [<- | []].
      exists category, strategies, strategy.
      split; [exact Hc | split; [exact Hs | split; [apply contains_iff, E | reflexivity]]].
    + intros (category & strategies & strategy & Hc & Hs & Hsub & ->).
      exists (category, strategies). split; [exact Hc|].
      apply in_flat_map. exists strategy. split; [exact Hs|].
      apply contains_iff in Hsub. rewrite Hsub. left. reflexivity.
  - rewrite identify_as_filter. apply NoDup_map_filter.
    vm_compute. repeat (apply List.NoDup_cons; [cbn; intuition discriminate |]).
    apply List.NoDup_nil.
  - rewrite identify_as_filter. rewrite List.length_map.
    etransitivity; [apply List.filter_length_le|]. vm_compute. reflexivity.
Qed.

(** When every new strategy is in the list already, nothing is appended. *)
Lemma append_new_present (new l : list string) :
  (forall s, In s new -> In s l) -> TherapeuticAnalyzer.append_new l new = l.
Proof.
  induction new as [|x rest IH]; intros Hall; [reflexivity|].
  cbn [TherapeuticAnalyzer.append_new].
  assert (Hx : existsb (String.eqb x) l = true)
    by (apply existsb_eqb_In, Hall; left; reflexivity).
  rewrite Hx. apply IH. intros s Hs. apply Hall. right. exact Hs.
Qed.

(** Updating twice with the same text: the second update adds no coping
    strategy, while a crisis text leaves its risk tag twice.  The four other
    lists and maps of the assessment are never touched. *)
Theorem update_twice_same_text (a : TherapeuticAssessment) (text : string) :
  let a1 := TherapeuticAnalyzer.update_therapeutic_assessment a text in
  let a2 := TherapeuticAnalyzer.update_therapeutic_assessment a1 text in
  let '(is_crisis, risk_level) := TherapeuticAnalyzer.detect_crisis text in
  coping_strategies a2 = coping_strategies a1
  /\ risk_factors a2
     = (if is_crisis
        then (risk_factors a
                ++ [Outputs.risk_tag risk_level; Outputs.risk_tag risk_level])%list
        else risk_factors a)
  /\ stress_indicators a2 = stress_indicators a
  /\ protective_factors a2 = protective_factors a
  /\ therapeutic_goals a2 = therapeutic_goals a
  /\ progress_metrics a2 = progress_metrics a.
Proof.
  cbn zeta.
  pose proof (risk_factors_updated a text) as H1.
  pose proof (risk_factors_updated
                (TherapeuticAnalyzer.update_therapeutic_assessment a text) text) as H2.
  destruct (TherapeuticAnalyzer.detect_crisis text) as [is_crisis risk_level] eqn:Hdet.
  cbn [fst snd] in H1, H2.
  split; [|split; [|repeat split; reflexivity]].
  - destruct (append_new_spec (TherapeuticAnalyzer.identify_coping_strategies text)
                (coping_strategies a)) as [added [Heq [_ Hin]]].
    unfold TherapeuticAnalyzer.update_therapeutic_assessment at 1.
    rewrite Hdet. cbn [coping_strategies].
    apply append_new_present. intros s Hs.
    unfold TherapeuticAnalyzer.update_therapeutic_assessment.
    rewrite Hdet. cbn [coping_strategies]. rewrite Heq. apply in_or_app.
    destruct (in_dec string_dec s (coping_strategies a)) as [Hold | Hnew];
      [left; exact Hold | right; apply Hin; tauto].
  - rewrite H2, H1. destruct is_crisis; [|reflexivity].
    rewrite <- app_assoc. reflexivity.
Qed.

End CopingProperties.

Section FreshAssessment.

Lemma fresh_mood :
  forall p, (0 <= p <= Z.of_nat 6)%Z -> forall n, (0 <= n <= Z.of_nat 6)%Z ->
    let mood :=
      ((1 - 0.3) * 5.0
       + 0.3 * Py.max 1.0 (Py.min 10.0 (5.0 + Py.float_of_int (p - n) * 0.5)))%float in
    Spec.within 4.0 6.0 mood /\ (mood <? 4.0)%float = false
    /\ (mood <=? 7.0)%float = true.
Proof.
  apply (for_each_upto 6
           (fun p => forall n, (0 <= n <= Z.of_nat 6)%Z ->
              let mood :=
                ((1 - 0.3) * 5.0
                 + 0.3 * Py.max 1.0
                           (Py.min 10.0 (5.0 + Py.float_of_int (p - n) * 0.5)))%float in
              Spec.within 4.0 6.0 mood /\ (mood <? 4.0)%float = false
              /\ (mood <=? 7.0)%float = true));
    cbn [seq map];
    repeat (apply List.Forall_cons; [by_cases_upto 6%nat |]); apply List.Forall_nil.
Qed.

Lemma fresh_anxiety :
  forall c, (0 <= c <= Z.of_nat 10)%Z ->
    let anxiety :=
      ((1 - 0.3) * 5.0
       + 0.3 * Py.max 1.0 (Py.min 10.0 (3.0 + Py.float_of_int c * 1.5)))%float in
    Spec.within 4.0 7.0 anxiety /\ (7.0 <? anxiety)%float = false.
Proof. by_cases_upto 10%nat. Qed.

(** The initial state of [process_message] is written with
    [TherapeuticAssessment()] (mood 5.0, anxiety 5.0).  One update from
    there leaves the mood in [4, 6] and the anxiety in [4, 7] whatever the
    text is, so the distress test (mood < 4.0 or anxiety > 7.0) is false:
    [_determine_mode] never selects THERAPEUTIC for a state with such an
    assessment, and the conversation graph goes from [mood_check] to
    [companion_mode]. *)
Theorem fresh_assessment_is_never_distressed (text : string) :
  let a := TherapeuticAnalyzer.update_therapeutic_assessment
             TherapeuticAssessment_default text in
  Spec.within 4.0 6.0 (mood_score a)
  /\ Spec.within 4.0 7.0 (anxiety_level a)
  /\ (forall (self : ARIAWorkflow.Self) state log state' log',
        therapeutic_assessment state = a ->
        ARIAWorkflow._determine_mode self state log = (Returned state', log') ->
        conversation_mode state' <> THERAPEUTIC)
  /\ (forall context,
        therapeutic_assessment context = a ->
        ConversationGraph.get_next_state "mood_check" context
        = Returned "companion_mode").
Proof.
  cbn zeta.
  set (a := TherapeuticAnalyzer.update_therapeutic_assessment
              TherapeuticAssessment_default text).
  assert (Hm : Spec.within 4.0 6.0 (mood_score a)
               /\ (mood_score a <? 4.0)%float = false
               /\ (mood_score a <=? 7.0)%float = true).
  { subst a. unfold TherapeuticAnalyzer.update_therapeutic_assessment.
    destruct (TherapeuticAnalyzer.detect_crisis text). cbn [mood_score].
    unfold TherapeuticAnalyzer.assess_mood. cbn zeta. rewrite !count_in_hit_count.
    pose proof (hit_count_bounds TherapeuticAnalyzer.mood_indicators_positive
                  (Py.lower text)) as Hp.
    pose proof (hit_count_bounds TherapeuticAnalyzer.mood_indicators_negative
                  (Py.lower text)) as Hn.
    change (Py.len TherapeuticAnalyzer.mood_indicators_positive) with (Z.of_nat 6) in Hp.
    change (Py.len TherapeuticAnalyzer.mood_indicators_negative) with (Z.of_nat 6) in Hn.
    exact (fresh_mood _ Hp _ Hn). }
  assert (Hx : Spec.within 4.0 7.0 (anxiety_level a)
               /\ (7.0 <? anxiety_level a)%float = false).
  { subst a. unfold TherapeuticAnalyzer.update_therapeutic_assessment.
    destruct (TherapeuticAnalyzer.detect_crisis text). cbn [anxiety_level].
    unfold TherapeuticAnalyzer.assess_anxiety. cbn zeta. rewrite count_in_hit_count.
    pose proof (hit_count_bounds TherapeuticAnalyzer.anxiety_indicators
                  (Py.lower text)) as Hc.
    change (Py.len TherapeuticAnalyzer.anxiety_indicators) with (Z.of_nat 10) in Hc.
    exact (fresh_anxiety _ Hc). }
  destruct Hm as [[Hm4 Hm6] [Hmlt H7]]. destruct Hx as [[Hx4 Hx7] Hxgt].
  split; [split; assumption | split; [split; assumption | split]].
  - intros self state log state' log' Hctx Hrun.
    rewrite determine_mode_action in Hrun.
    destruct (ARIAWorkflow.call_detect_crisis _ _) as [[is_crisis risk] | e];
      [|discriminate].
    injection Hrun as Hstate _. subst state'.
    unfold Spec.ModeSelector. rewrite Hctx, Hmlt, Hxgt. cbn [orb].
    destruct is_crisis; [discriminate|].
    repeat match goal with |- context [if ?b then _ else _] => destruct b end;
      discriminate.
  - intros context Hctx. rewrite get_next_state_mood_check. cbn zeta.
    rewrite Hctx, Hmlt, Hxgt, Hm4, Hx7. cbn [orb andb].
    rewrite H7. reflexivity.
Qed.

End FreshAssessment.

(* ================================================================== *)
(** * Further properties of the conversation graph *)
(* ================================================================== *)

Section StageGraphProperties.

Lemma first_match_spec (possible_states : list (string * string)) (context : ARIAState) :
  match ConversationGraph.first_match possible_states context with
  | Some next_state =>
      exists before condition after,
        possible_states = (before ++ (next_state, condition) :: after)%list
        /\ ConversationGraph._evaluate_transition_condition condition context = true
        /\ Forall (fun '(_, c) =>
                     ConversationGraph._evaluate_transition_condition c context = false)
                  before
  | None =>
      Forall (fun '(_, c) =>
                ConversationGraph._evaluate_transition_condition c context = false)
             possible_states
  end.
Proof.
  induction possible_states as [|[target condition] rest IH];
    cbn [ConversationGraph.first_match]; [constructor|].
  destruct (ConversationGraph._evaluate_transition_condition condition context) eqn:E.
  - exists [], condition, rest. split; [reflexivity | split; [exact E | constructor]].
  - destruct (ConversationGraph.first_match rest context) as [next|].
    + destruct IH as (before & c & after & -> & Hc & Hb).
      exists ((target, condition) :: before), c, after.
      split; [reflexivity | split; [exact Hc | constructor; assumption]].
    + constructor; assumption.
Qed.

Lemma successors_spec (current : string) :
  match ConversationGraph.successors current with
  | Raised e => e = NetworkXError current /\ ~ In current ConversationGraph.states
  | Returned possible_states =>
      In current ConversationGraph.states
      /\ forall target condition,
           In (target, condition) possible_states
           <-> In (current, target, condition) ConversationGraph.transitions
  end.
Proof.
  unfold ConversationGraph.successors.
  destruct (existsb (String.eqb current) ConversationGraph.states) eqn:E.
  - apply existsb_eqb_In in E. split; [exact E|].
    intros target condition. rewrite in_flat_map. split.
    + intros [[[source t] c] [Hin Hsel]].
      destruct (String.eqb source current) eqn:Es; [|destruct Hsel].
      apply String.eqb_eq in Es. destruct Hsel as [Heq | []].
      inversion Heq; subst. exact Hin.
    + intros Hin. exists (current, target, condition). split; [exact Hin|].
      rewrite String.eqb_refl. left. reflexivity.
  - split; [reflexivity|]. intros Hin. apply existsb_eqb_In in Hin. congruence.
Qed.

Lemma transition_targets :
  Forall (fun '(source, target, _) =>
            In target ConversationGraph.states
            /\ target <> source
            /\ target <> "initial" /\ target <> "assessment_mode")
         ConversationGraph.transitions.
Proof.
  unfold ConversationGraph.transitions.
  repeat (apply List.Forall_cons;
            [split; [cbn; tauto | repeat split; discriminate] |]).
  apply List.Forall_nil.
Qed.

(** [get_next_state] raises [NetworkXError] exactly for a stage that is not
    a node of the graph.  For a node it returns a node: the target of the
    first edge out of the current stage, in the order the edges were added,
    whose guard holds, or the current stage when no guard of its edges
    holds. *)
Theorem get_next_state_first_match (current : string) (context : ARIAState) :
  match ConversationGraph.get_next_state current context with
  | Raised e => e = NetworkXError current /\ ~ In current ConversationGraph.states
  | Returned next =>
      In current ConversationGraph.states
      /\ In next ConversationGraph.states
      /\ ((next = current
           /\ forall target condition,
                In (current, target, condition) ConversationGraph.transitions ->
                ConversationGraph._evaluate_transition_condition condition context = false)
          \/ exists before condition after,
               ConversationGraph.successors current
               = Returned (before ++ (next, condition) :: after)%list
               /\ In (current, next, condition) ConversationGraph.transitions
               /\ ConversationGraph._evaluate_transition_condition condition context = true
               /\ Forall (fun '(_, c) =>
                            ConversationGraph._evaluate_transition_condition c context
                            = false)
                         before)
  end.
Proof.
  unfold ConversationGraph.get_next_state.
  pose proof (successors_spec current) as Hs.
  destruct (ConversationGraph.successors current) as [possible | e]; [|exact Hs].
  destruct Hs as [Hcur Hedges].
  pose proof (first_match_spec possible context) as Hf.
  destruct (ConversationGraph.first_match possible context) as [next|].
  - destruct Hf as (before & condition & after & -> & Hc & Hb).
    assert (Hin : In (current, next, condition) ConversationGraph.transitions).
    { apply Hedges. apply in_or_app. right. left. reflexivity. }
    split; [exact Hcur | split].
    + pose proof transition_targets as Ht. rewrite List.Forall_forall in Ht.
      apply (Ht _ Hin).
    + right. exists before, condition, after. auto.
  - split; [exact Hcur | split; [exact Hcur|]]. left. split; [reflexivity|].
    intros target condition Hin. apply Hedges in Hin.
    rewrite List.Forall_forall in Hf. apply (Hf _ Hin).
Qed.

(** The stages [closure] and [follow_up] are never left, and no transition
    leads into [initial] or [assessment_mode]: a stage that differs from
    the current one is never one of these two. *)
Theorem stage_graph_dead_ends (current : string) (context : ARIAState) :
  ConversationGraph.get_next_state "closure" context = Returned "closure"
  /\ ConversationGraph.get_next_state "follow_up" context = Returned "follow_up"
  /\ match ConversationGraph.get_next_state current context with
     | Returned next =>
         next = current \/ (next <> "initial" /\ next <> "assessment_mode")
     | Raised _ => True
     end.
Proof.
  split; [reflexivity | split; [reflexivity|]].
  unfold ConversationGraph.get_next_state.
  pose proof (successors_spec current) as Hs.
  destruct (ConversationGraph.successors current) as [possible | e]; [|exact I].
  destruct Hs as [_ Hedges].
  pose proof (first_match_spec possible context) as Hf.
  destruct (ConversationGraph.first_match possible context) as [next|]; [|left; reflexivity].
  destruct Hf as (before & condition & after & -> & _ & _).
  assert (Hin : In (current, next, condition) ConversationGraph.transitions).
  { apply Hedges. apply in_or_app. right. left. reflexivity. }
  pose proof transition_targets as Ht. rewrite List.Forall_forall in Ht.
  right. apply (Ht _ Hin).
Qed.

(** The edges out of [therapeutic_mode], in order: progress, escalation,
    end of session. *)
Lemma get_next_state_therapeutic_mode (s : ARIAState) :
  ConversationGraph.get_next_state "therapeutic_mode" s
  = Returned
      (if (6.0 <? mood_score (therapeutic_assessment s))%float
       then "coaching_mode"
       else if (0 <? Py.len (risk_factors (therapeutic_assessment s)))%Z
       then "crisis_intervention"
       else if (20 <? Py.len (conversation_history s))%Z
       then "follow_up"
       else "therapeutic_mode").
Proof.
  unfold ConversationGraph.get_next_state.
  change (ConversationGraph.successors "therapeutic_mode")
    with (Returned [("coaching_mode", "progress_made");
                    ("crisis_intervention", "crisis_escalation");
                    ("follow_up", "session_end")]).
  cbn [ConversationGraph.first_match].
  change (ConversationGraph._evaluate_transition_condition "progress_made" s)
    with (6.0 <? mood_score (therapeutic_assessment s))%float.
  change (ConversationGraph._evaluate_transition_condition "crisis_escalation" s)
    with (0 <? Py.len (risk_factors (therapeutic_assessment s)))%Z.
  change (ConversationGraph._evaluate_transition_condition "session_end" s)
    with (20 <? Py.len (conversation_history s))%Z.
  repeat match goal with |- context [if ?b then _ else _] => destruct b end;
    reflexivity.
Qed.

Lemma len_pos_iff {A} (l : list A) : (0 <? Py.len l)%Z = true <-> l <> [].
Proof.
  unfold Py.len. destruct l; cbn; split; try congruence; try discriminate.
  intros _. reflexivity.
Qed.

(** From [therapeutic_mode], a mood above 6.0 leads to [coaching_mode] even
    when risk factors are on record; the escalation to
    [crisis_intervention] needs a mood that is not above 6.0. *)
Theorem progress_shadows_escalation (s : ARIAState) :
  risk_factors (therapeutic_assessment s) <> [] ->
  ConversationGraph.get_next_state "therapeutic_mode" s
  = Returned (if (6.0 <? mood_score (therapeutic_assessment s))%float
              then "coaching_mode" else "crisis_intervention").
Proof.
  intros Hrisk. rewrite get_next_state_therapeutic_mode.
  apply len_pos_iff in Hrisk. rewrite Hrisk. reflexivity.
Qed.

Lemma progress_shadows_escalation_witness :
  let s := ARIAWorkflow.set_therapeutic_assessment
             (mkTherapeuticAssessment 6.5 2.0 [] [] ["Crisis indicators detected: 2.0"]
                [] [] ∅)
             (Samples.turn "I am fine now" Samples.earlier_turn 6.5 2.0 0.5 THERAPEUTIC) in
  risk_factors (therapeutic_assessment s) <> []
  /\ ConversationGraph.get_next_state "therapeutic_mode" s = Returned "coaching_mode".
Proof.
  split; [discriminate|].
  apply (progress_shadows_escalation
           (ARIAWorkflow.set_therapeutic_assessment
              (mkTherapeuticAssessment 6.5 2.0 [] [] ["Crisis indicators detected: 2.0"]
                 [] [] ∅)
              (Samples.turn "I am fine now" Samples.earlier_turn 6.5 2.0 0.5 THERAPEUTIC))).
  discriminate.
Defined.

(** Risk factors are never removed by an update. *)
Lemma risk_factors_kept (texts : list string) (a : TherapeuticAssessment) :
  risk_factors a <> [] ->
  risk_factors (fold_left TherapeuticAnalyzer.update_therapeutic_assessment texts a) <> [].
Proof.
  revert a. induction texts as [|text rest IH]; intros a Ha; [exact Ha|].
  cbn [fold_left]. apply IH. rewrite risk_factors_updated.
  destruct (fst (TherapeuticAnalyzer.detect_crisis text)); [|exact Ha].
  destruct (risk_factors a); discriminate.
Qed.

(** Once an assessment has been updated with a crisis text, the stage
    [crisis_intervention] is never left, whatever texts follow: the guard
    [crisis_resolved] asks for an empty [risk_factors], and the updates only
    append to it. *)
Theorem crisis_intervention_is_never_left (a : TherapeuticAssessment)
    (text : string) (later : list string) (context : ARIAState) :
  fst (TherapeuticAnalyzer.detect_crisis text) = true ->
  therapeutic_assessment context
  = fold_left TherapeuticAnalyzer.update_therapeutic_assessment (text :: later) a ->
  ConversationGraph.get_next_state "crisis_intervention" context
  = Returned "crisis_intervention".
Proof.
  intros Hcrisis Hctx.
  assert (Hrisk : risk_factors (therapeutic_assessment context) <> []).
  { rewrite Hctx. cbn [fold_left]. apply risk_factors_kept.
    rewrite risk_factors_updated, Hcrisis. destruct (risk_factors a); discriminate. }
  unfold ConversationGraph.get_next_state.
  change (ConversationGraph.successors "crisis_intervention")
    with (Returned [("therapeutic_mode", "crisis_resolved")]).
  cbn [ConversationGraph.first_match].
  change (ConversationGraph._evaluate_transition_condition "crisis_resolved" context)
    with ((5.0 <? mood_score (therapeutic_assessment context))%float
          && (Py.len (risk_factors (therapeutic_assessment context)) =? 0)%Z).
  assert (Hz : (Py.len (risk_factors (therapeutic_assessment context)) =? 0)%Z = false).
  { unfold Py.len. destruct (risk_factors (therapeutic_assessment context));
      [contradiction | reflexivity]. }
  rewrite Hz, andb_false_r. reflexivity.
Qed.

Lemma crisis_intervention_is_never_left_witness :
  let a := TherapeuticAnalyzer.update_therapeutic_assessment
             (TherapeuticAnalyzer.update_therapeutic_assessment
                TherapeuticAssessment_default "I feel hopeless")
             "I am happy, great, wonderful today" in
  fst (TherapeuticAnalyzer.detect_crisis "I feel hopeless") = true
  /\ ConversationGraph.get_next_state "crisis_intervention"
       (ARIAWorkflow.set_therapeutic_assessment a
          (Samples.turn "I am happy, great, wonderful today" Samples.earlier_turn
                        5.0 5.0 0.5 COMPANION))
     = Returned "crisis_intervention".
Proof.
  split; [reflexivity|].
  apply (crisis_intervention_is_never_left TherapeuticAssessment_default
           "I feel hopeless" ["I am happy, great, wonderful today"]);
    reflexivity.
Defined.

Lemma dict_get_none {A} (d : list (string * A)) (key : string) :
  ~ In key (map fst d) -> ConversationGraph.dict_get d key = None.
Proof.
  induction d as [|[k v] rest IH]; cbn [ConversationGraph.dict_get map fst In];
    intros Hnot; [reflexivity|].
  destruct (String.eqb k key) eqn:E.
  - apply String.eqb_eq in E. tauto.
  - apply IH. tauto.
Qed.

(** [get_conversation_prompt] gives the default prompt exactly for a stage
    that is not a node of the graph: each of the eleven stages has a prompt
    of its own. *)
Theorem prompt_default_iff_unknown_stage (state : string) (context : ARIAState) :
  ConversationGraph.get_conversation_prompt state context = "How can I help you today?"
  <-> ~ In state ConversationGraph.states.
Proof.
  unfold ConversationGraph.get_conversation_prompt. split.
  - intros Hdef Hin. cbn in Hin.
    repeat (destruct Hin as [<- | Hin];
            [revert Hdef; cbn; unfold ConversationGraph._get_therapeutic_prompt;
             repeat match goal with |- context [if ?b then _ else _] => destruct b end;
             discriminate |]).
    destruct Hin.
  - intros Hnot. rewrite dict_get_none; [reflexivity|]. exact Hnot.
Qed.

End StageGraphProperties.

(* ================================================================== *)
(** * Further properties of the workflow *)
(* ================================================================== *)

Section RunProperties.

Import ARIAWorkflow Outputs Pipeline.

Ltac unfold_M :=
  unfold mbind, M_bind, mret, M_ret, bind, lift, ret, raise, emit in *.

Lemma successor_steps (n n' : Node) (state : ARIAState) :
  successor n state = To n' -> (steps_left n' < steps_left n)%nat.
Proof.
  destruct n; cbn [successor]; try (intros H; inversion H; subst; cbn; lia).
  unfold _route_conversation_mode.
  destruct (conversation_mode state); intros H; inversion H; subst; cbn; lia.
Qed.

Lemma run_enough (self : Self) (limit : nat) :
  forall (k : nat) (n : Node) (state : ARIAState) (log : list Event),
    (steps_left n <= limit)%nat ->
    run self (limit + k) n state log = run self limit n state log.
Proof.
  induction limit as [|limit IH]; intros k n state log Hn.
  - destruct n; cbn in Hn; lia.
  - change (S limit + k)%nat with (S (limit + k)). rewrite !run_step.
    destruct (node_action self n state log) as [[state' | e] log']; [|reflexivity].
    destruct (successor n state') as [n' |] eqn:Hs; [|reflexivity].
    apply successor_steps in Hs. rewrite IH by lia. reflexivity.
Qed.

Lemma run_path_bounded (self : Self) (limit : nat) :
  forall (n : Node) (state : ARIAState) (log : list Event),
    Forall (fun m => (steps_left m <= steps_left n)%nat) (path (run self limit n state log))
    /\ List.NoDup (path (run self limit n state log)).
Proof.
  induction limit as [|limit IH]; intros n state log.
  - cbn. split; constructor.
  - rewrite run_step.
    destruct (node_action self n state log) as [[state' | e] log'].
    + destruct (successor n state') as [n' |] eqn:Hs.
      * apply successor_steps in Hs. cbn zeta. unfold path. cbn [visited map fst].
        destruct (IH n' state' log') as [Hb Hnd]. unfold path in Hb, Hnd. split.
        -- apply List.Forall_cons; [lia|].
           eapply List.Forall_impl; [|exact Hb]. cbn. intros m Hm. lia.
        -- apply List.NoDup_cons; [|exact Hnd]. intros Hin.
           rewrite List.Forall_forall in Hb. apply Hb in Hin. lia.
      * unfold path. cbn. split; [repeat constructor | repeat constructor; tauto].
    + unfold path. cbn. split; [repeat constructor | repeat constructor; tauto].
Qed.

(** A run needs at most eight steps: with any larger limit it is the run
    with limit 8, so LangGraph's limit of 25 is never what ends a run of
    this graph; and a run enters no node twice. *)
Theorem run_within_eight_steps (self : Self) (k : nat) (n : Node)
    (state : ARIAState) (log : list Event) :
  run self (8 + k) n state log = run self 8 n state log
  /\ ainvoke self state log = run self 8 entry_point state log
  /\ List.NoDup (path (run self (8 + k) n state log))
  /\ (List.length (path (run self (8 + k) n state log)) <= steps_left n)%nat.
Proof.
  split; [|split; [|split]].
  - apply run_enough. destruct n; cbn; lia.
  - unfold ainvoke, recursion_limit. apply (run_enough self 8 17). cbn. lia.
  - apply run_path_bounded.
  - (* the nodes of the path are distinct and none has more steps left *)
    generalize (8 + k)%nat. intros limit. revert n state log.
    induction limit as [|limit IH]; intros n state log.
    + cbn. lia.
    + rewrite run_step.
      destruct (node_action self n state log) as [[state' | e] log'].
      * destruct (successor n state') as [n' |] eqn:Hs.
        -- apply successor_steps in Hs. cbn zeta. unfold path. cbn [visited map List.length].
           specialize (IH n' state' log'). unfold path in IH. lia.
        -- unfold path. cbn. destruct n; cbn; lia.
      * unfold path. cbn. destruct n; cbn; lia.
Qed.

(** What a node may add to the log: nothing, or, for [update_memory], the
    turn. *)
Lemma node_action_events (self : Self) (n : Node) (state : ARIAState)
    (log : list Event) :
  snd (node_action self n state log) = log
  \/ (n = update_memory
      /\ node_action self n state log
         = (Raised (NameError "datetime"), (log ++ [recorded_turn state])%list)).
Proof.
  destruct n; cbn [node_action].
  - left. unfold _analyze_input. unfold_M.
    destruct (get_contextual_embeddings _ _ _); reflexivity.
  - left. rewrite update_personality_action. reflexivity.
  - left. unfold _update_therapeutic. unfold_M.
    destruct (call_update_therapeutic_assessment _ _ _); reflexivity.
  - left. rewrite determine_mode_action.
    destruct (call_detect_crisis _ _) as [[? ?]|]; reflexivity.
  - left. rewrite get_context_action. reflexivity.
  - left. rewrite generate_response_action. reflexivity.
  - left. rewrite apply_seal_action. reflexivity.
  - right. split; [reflexivity | apply update_memory_action].
Qed.

(** A run logs nothing, or exactly one event: the call of [add_conversation]
    made by [update_memory], with which the run ends.  No run ever stores a
    personality vector or a conversation vector. *)
Theorem run_logs_at_most_one_turn (self : Self) (limit : nat) (n : Node)
    (state : ARIAState) (log : list Event) :
  let r := run self limit n state log in
  events r = log
  \/ exists s_mem,
       In (update_memory, s_mem) (visited r)
       /\ events r = (log ++ [recorded_turn s_mem])%list
       /\ result r = Raised (NameError "datetime").
Proof.
  cbn zeta. revert n state log.
  induction limit as [|limit IH]; intros n state log; [left; reflexivity|].
  rewrite run_step.
  destruct (node_action_events self n state log) as [Hsame | [-> Hmem]].
  - destruct (node_action self n state log) as [[state' | e] log']; cbn [snd] in Hsame;
      subst log'.
    + destruct (successor n state') as [n' |]; [|left; reflexivity].
      cbn zeta. cbn [visited result events].
      destruct (IH n' state' log) as [H | (s_mem & Hin & Hev & Hres)];
        [left; exact H | right].
      exists s_mem. split; [right; exact Hin | split; assumption].
    + left. reflexivity.
  - rewrite Hmem. right. exists state.
    split; [left; reflexivity | split; reflexivity].
Qed.

(** A run from the entry point raises and logs nothing. *)
Lemma ainvoke_raises (self : Self) (state : ARIAState) (log : list Event) :
  exists e, result (ainvoke self state log) = Raised e
            /\ events (ainvoke self state log) = log.
Proof.
  unfold ainvoke, recursion_limit, entry_point.
  rewrite run_step. cbn [node_action]. unfold _analyze_input. unfold_M.
  destruct (get_contextual_embeddings _ _ _) as [v | e].
  - cbn [successor]. rewrite run_step. cbn [node_action].
    rewrite update_personality_action. eexists. split; reflexivity.
  - eexists. split; reflexivity.
Qed.

(** The [try] statement of [process_message] answers every initial state
    with the fixed apology, for every workflow, and nothing reaches the
    memory system: the run it starts always raises in its first two
    nodes. *)
Theorem try_statement_always_apologises (self : Self) (initial_state : ARIAState)
    (log : list Event) :
  process_message_try self initial_state log = (Returned apology, log).
Proof.
  unfold process_message_try.
  destruct (ainvoke_raises self initial_state log) as [e [Hr He]].
  rewrite Hr, He. reflexivity.
Qed.



(** The model is sent the last six entries of the history, in order, and
    then the current message as a human message: at most seven messages.
    An entry counts as the user's only when its role is exactly "user". *)
Theorem context_messages_shape (state : ARIAState) :
  let history := conversation_history state in
  let sent := ModelInput.context_messages state in
  List.length sent = S (Nat.min (List.length history) 6)
  /\ last sent = Some (ModelInput.HumanMessage (current_message state))
  /\ exists older recent,
       history = (older ++ recent)%list
       /\ sent = (map (fun msg => if String.eqb (role msg) "user"
                                  then ModelInput.HumanMessage (content msg)
                                  else ModelInput.AIMessage (content msg)) recent
                  ++ [ModelInput.HumanMessage (current_message state)])%list
       /\ (older <> [] -> List.length recent = 6%nat).
Proof.
  cbn zeta. unfold ModelInput.context_messages, ModelInput.last_n.
  set (h := conversation_history state).
  split; [|split].
  - rewrite length_app, List.length_map, length_skipn. cbn. lia.
  - apply last_snoc.
  - exists (firstn (List.length h - 6) h), (skipn (List.length h - 6) h).
    split; [symmetry; apply firstn_skipn | split; [reflexivity|]].
    intros Hne. rewrite length_skipn.
    destruct (Nat.le_gt_cases (List.length h) 6) as [Hle | Hgt]; [|lia].
    exfalso. apply Hne.
    replace (List.length h - 6)%nat with 0%nat by lia. reflexivity.
Qed.

End RunProperties.

(* ================================================================== *)
(** * The memory systems *)
(* ================================================================== *)

Section MemoryProperties.

Lemma any_in_iff (words : list string) (text : string) :
  Py.any_in words text = true
  <-> exists w, In w words /\ Spec.substring_of w text.
Proof.
  unfold Py.any_in. rewrite existsb_exists. split.
  - intros [w [Hin Hc]]. exists w. split; [exact Hin | apply contains_iff, Hc].
  - intros [w [Hin Hs]]. exists w. split; [exact Hin | apply contains_iff, Hs].
Qed.

Lemma picked_sublist {A} (p : A -> bool) (l : list (string * A)) :
  flat_map (fun '(name, a) => if p a then [name] else []) l `sublist_of` map fst l.
Proof.
  induction l as [|[name a] rest IH]; [constructor|].
  cbn [flat_map map fst]. destruct (p a).
  - cbn [app]. apply sublist_skip, IH.
  - cbn [app]. apply sublist_cons, IH.
Qed.

(** [_extract_emotional_indicators] names an emotion exactly when one of
    its keywords occurs in the lower-cased text; the emotions come at most
    once each, in the order joy, sadness, anxiety, anger, calm. *)
Theorem extract_emotional_indicators_spec (text : string) :
  (forall emotion,
      In emotion (EnhancedMemorySystem._extract_emotional_indicators text)
      <-> exists keywords keyword,
            In (emotion, keywords) EnhancedMemorySystem.emotion_keywords
            /\ In keyword keywords
            /\ Spec.substring_of keyword (Py.lower text))
  /\ EnhancedMemorySystem._extract_emotional_indicators text
       `sublist_of` ["joy"; "sadness"; "anxiety"; "anger"; "calm"]
  /\ List.NoDup (EnhancedMemorySystem._extract_emotional_indicators text).
Proof.
  assert (Hsub : EnhancedMemorySystem._extract_emotional_indicators text
                   `sublist_of` ["joy"; "sadness"; "anxiety"; "anger"; "calm"]).
  { unfold EnhancedMemorySystem._extract_emotional_indicators. cbn zeta.
    apply (picked_sublist (fun keywords => Py.any_in keywords (Py.lower text))
             EnhancedMemorySystem.emotion_keywords). }
  split; [|split; [exact Hsub|]].
  - intros emotion. unfold EnhancedMemorySystem._extract_emotional_indicators.
    cbn zeta. rewrite in_flat_map. split.
    + intros [[e keywords] [Hin Hsel]].
      destruct (Py.any_in keywords (Py.lower text)) eqn:E; [|destruct Hsel].
      destruct Hsel as [<- | []]. apply any_in_iff in E. destruct E as [kw [Hk Hs]].
      exists keywords, kw. auto.
    + intros (keywords & kw & Hin & Hk & Hs). exists (emotion, keywords).
      split; [exact Hin|].
      assert (E : Py.any_in keywords (Py.lower text) = true)
        by (apply any_in_iff; exists kw; auto).
      rewrite E. left. reflexivity.
  - apply NoDup_ListNoDup. eapply sublist_NoDup; [|exact Hsub]. apply NoDup_ListNoDup.
    repeat (apply List.NoDup_cons; [cbn; intuition discriminate |]).
    apply List.NoDup_nil.
Qed.

(** [get_conversation_history] never raises: a failure of the Zep call
    gives the empty history.  Otherwise every message is kept, in order; its
    role is "user" exactly when Zep's [role_type] is "user" and "assistant"
    in every other case (a missing or an unknown role type included), and a
    missing content becomes the empty string. *)
Theorem get_conversation_history_spec (e : exn) (messages : list EnhancedMemorySystem.ZepMessage) :
  EnhancedMemorySystem.get_conversation_history (Raised e) = []
  /\ Forall2 (fun zep msg =>
                (role msg = "user" \/ role msg = "assistant")
                /\ (role msg = "user"
                    <-> EnhancedMemorySystem.role_type zep = Some "user")
                /\ (forall c, EnhancedMemorySystem.zep_content zep = Some c ->
                              content msg = c)
                /\ (EnhancedMemorySystem.zep_content zep = None -> content msg = ""))
             messages
             (EnhancedMemorySystem.get_conversation_history (Returned messages)).
Proof.
  split; [reflexivity|].
  unfold EnhancedMemorySystem.get_conversation_history.
  induction messages as [|[rt c] rest IH]; cbn [map]; constructor; [|exact IH].
  cbn [role content EnhancedMemorySystem.role_type EnhancedMemorySystem.zep_content].
  split; [|split; [|split]].
  - destruct rt as [r|]; [destruct (String.eqb r "user")|]; auto.
  - destruct rt as [r|].
    + destruct (String.eqb r "user") eqn:E.
      * apply String.eqb_eq in E. subst r. tauto.
      * apply String.eqb_neq in E. split; [discriminate | congruence].
    + split; discriminate.
  - intros c' H. destruct c; congruence.
  - intros H. destruct c; [discriminate | reflexivity].
Qed.

Lemma pad_loop_spec (rounds : nat) :
  forall l : list float,
    VectorMemorySystem.pad_loop rounds l
    = (l ++ repeat 0.0%float
              (Nat.min rounds (VectorMemorySystem.dimension - List.length l)))%list.
Proof.
  induction rounds as [|rounds IH]; intros l; cbn [VectorMemorySystem.pad_loop].
  - cbn. symmetry. apply app_nil_r.
  - destruct (Nat.ltb (List.length l) VectorMemorySystem.dimension) eqn:E.
    + apply Nat.ltb_lt in E. rewrite IH, length_app. cbn [List.length].
      rewrite <- app_assoc. f_equal.
      replace (Nat.min (S rounds) (VectorMemorySystem.dimension - List.length l))
        with (S (Nat.min rounds
                   (VectorMemorySystem.dimension - (List.length l + 1)))) by lia.
      reflexivity.
    + apply Nat.ltb_ge in E.
      replace (VectorMemorySystem.dimension - List.length l)%nat with 0%nat by lia.
      rewrite Nat.min_0_r. cbn. symmetry. apply app_nil_r.
Qed.

(** The vector [store_personality_vector] stores always has 384 components:
    the trait values followed by the therapeutic values, cut after 384, and
    0.0 in every place the values do not fill. *)
Theorem personality_vector_shape (trait_values therapeutic_values : list float) :
  let v := VectorMemorySystem.personality_vector trait_values therapeutic_values in
  List.length v = 384%nat
  /\ forall i, (i < 384)%nat ->
       nth i v 0.0%float = nth i (trait_values ++ therapeutic_values)%list 0.0%float.
Proof.
  cbn zeta. unfold VectorMemorySystem.personality_vector. cbn zeta.
  rewrite pad_loop_spec.
  set (l := (trait_values ++ therapeutic_values)%list).
  change VectorMemorySystem.dimension with 384%nat.
  split.
  - rewrite length_firstn, length_app, repeat_length. lia.
  - intros i Hi. rewrite nth_firstn.
    assert (Hlt : (i <? 384)%nat = true) by (apply Nat.ltb_lt; exact Hi).
    rewrite Hlt.
    destruct (Nat.lt_ge_cases i (List.length l)) as [Hin | Hout].
    + apply app_nth1. exact Hin.
    + rewrite app_nth2 by exact Hout. rewrite (nth_overflow l) by exact Hout.
      apply nth_repeat.
Qed.

End MemoryProperties.

Section RelationshipGraph.

Import EnhancedMemorySystem GraphInvariant.

Lemma has_node_iff (G : Graph) (n : string) :
  has_node G n = true <-> In n (map fst (nodes G)).
Proof.
  unfold has_node. rewrite existsb_exists, in_map_iff. split.
  - intros [[m ty] [Hin Heq]]. apply String.eqb_eq in Heq. subst m.
    exists (n, ty). split; [reflexivity | exact Hin].
  - intros [[m ty] [Heq Hin]]. cbn in Heq. subst m.
    exists (n, ty). split; [exact Hin | apply String.eqb_refl].
Qed.

Lemma has_node_false (G : Graph) (n m : string) (ty : option string) :
  has_node G n = false -> In (m, ty) (nodes G) -> String.eqb m n = false.
Proof.
  intros Hno Hin. destruct (String.eqb m n) eqn:E; [|reflexivity].
  apply String.eqb_eq in E. subst m.
  assert (H : has_node G n = true)
    by (apply has_node_iff, in_map_iff; exists (n, ty); auto).
  congruence.
Qed.

(** A name that is not a node has no neighbours and is nobody's
    neighbour. *)
Lemma stranger_has_no_edges (G : Graph) (n : string) :
  well_formed G -> has_node G n = false ->
  forall a b, In (a, b) (edges G) -> String.eqb a n = false /\ String.eqb b n = false.
Proof.
  intros Hwf Hno a b Hin. destruct (Hwf a b Hin) as [Ha Hb]. split.
  - destruct (String.eqb a n) eqn:E; [|reflexivity].
    apply String.eqb_eq in E. congruence.
  - destruct (String.eqb b n) eqn:E; [|reflexivity].
    apply String.eqb_eq in E. congruence.
Qed.

Lemma stranger_adjacent (G : Graph) (n : string) :
  well_formed G -> has_node G n = false -> adjacent G n = [].
Proof.
  intros Hwf Hno. unfold adjacent.
  pose proof (stranger_has_no_edges G n Hwf Hno) as H.
  induction (edges G) as [|[a b] rest IH]; [reflexivity|].
  cbn [flat_map]. destruct (H a b (or_introl eq_refl)) as [-> ->].
  apply IH. intros a' b' Hin. apply H. right. exact Hin.
Qed.

Lemma stranger_no_edge (G : Graph) (u n : string) :
  well_formed G -> has_node G n = false -> has_edge G u n = false.
Proof.
  intros Hwf Hno. unfold has_edge.
  pose proof (stranger_has_no_edges G n Hwf Hno) as H.
  induction (edges G) as [|[a b] rest IH]; [reflexivity|].
  cbn [existsb]. destruct (H a b (or_introl eq_refl)) as [Ha Hb].
  rewrite Ha, Hb, !andb_false_r, !andb_false_l. cbn [orb].
  apply IH. intros a' b' Hin. apply H. right. exact Hin.
Qed.

(** A user nobody has registered has no session, no connection and the
    relationship strength 0.0. *)
Theorem unknown_user_has_no_sessions (history_of : string -> Z -> list Message)
    (G : Graph) (session user : string) :
  well_formed G -> has_node G user = false ->
  user_sessions G user = []
  /\ _get_relationship_context G user = mkRelationshipContext 0 0.0 None
  /\ total_sessions (get_enhanced_context history_of G session user) = 0%Z
  /\ relationship_strength (get_enhanced_context history_of G session user) = 0.0%float.
Proof.
  intros Hwf Hno.
  assert (Hs : user_sessions G user = []).
  { unfold user_sessions.
    assert (Hall : forall node, existsb (fun neighbor => String.eqb neighbor user)
                                        (adjacent G node) = false).
    { intros node. unfold adjacent.
      pose proof (stranger_has_no_edges G user Hwf Hno) as H.
      induction (edges G) as [|[a b] rest IH]; [reflexivity|].
      cbn [flat_map]. rewrite existsb_app.
      rewrite IH by (intros a' b' Hin; apply H; right; exact Hin).
      destruct (H a b (or_introl eq_refl)) as [Ha Hb].
      destruct (String.eqb a node); [cbn; rewrite Hb; reflexivity|].
      destruct (String.eqb b node); [cbn; rewrite Ha; reflexivity | reflexivity]. }
    induction (nodes G) as [|[node ty] rest IH]; [reflexivity|].
    cbn [flat_map]. rewrite Hall, andb_false_r. exact IH. }
  split; [exact Hs|].
  unfold get_enhanced_context, analyze_cross_session_patterns, _get_relationship_context.
  cbn zeta. rewrite Hs, Hno. repeat split.
Qed.

Lemma unknown_user_has_no_sessions_witness :
  user_sessions empty_graph "alice" = []
  /\ _get_relationship_context empty_graph "alice" = mkRelationshipContext 0 0.0 None.
Proof.
  destruct (unknown_user_has_no_sessions (fun _ _ => []) empty_graph "s" "alice")
    as (H1 & H2 & _).
  - intros a b [].
  - reflexivity.
  - split; assumption.
Defined.

Lemma length_append (s1 s2 : string) :
  String.length (s1 ++ s2) = (String.length s1 + String.length s2)%nat.
Proof. induction s1 as [|c s1 IH]; simpl; [reflexivity | f_equal; exact IH]. Qed.

Lemma session_name_is_not_the_user (user uuid8 : string) :
  session_name user uuid8 <> user.
Proof.
  intros H. apply (f_equal String.length) in H. unfold session_name in H.
  rewrite !length_append in H. cbn in H. lia.
Qed.

Lemma add_node_nodes (G : Graph) (n ty : string) :
  nodes (add_node G n ty)
  = (map (fun '(m, old) => if String.eqb m n then (m, Some ty) else (m, old)) (nodes G)
     ++ (if has_node G n then [] else [(n, Some ty)]))%list
  /\ edges (add_node G n ty) = edges G.
Proof.
  unfold add_node. destruct (has_node G n) eqn:E; cbn [nodes edges].
  - split; [symmetry; apply app_nil_r | reflexivity].
  - split; [|reflexivity]. f_equal. symmetry.
    rewrite <- (map_id (nodes G)) at 2. apply map_ext_in.
    intros [m old] Hin. rewrite (has_node_false G n m old E Hin). reflexivity.
Qed.

Lemma add_node_names (G : Graph) (n ty : string) :
  map fst (nodes (add_node G n ty))
  = (map fst (nodes G) ++ (if has_node G n then [] else [n]))%list.
Proof.
  destruct (add_node_nodes G n ty) as [-> _]. rewrite map_app, map_map. f_equal.
  - apply map_ext. intros [m old]. destruct (String.eqb m n); reflexivity.
  - destruct (has_node G n); reflexivity.
Qed.

(** The graph a successful [get_or_create_session] leaves, for a session
    name that is new. *)
Lemma created_graph (uuid8 : string) (G : Graph) (user : string) :
  well_formed G ->
  has_node G (session_name user uuid8) = false ->
  get_or_create_session (Returned tt) uuid8 G user
  = (session_name user uuid8,
     mkGraph (nodes (add_node G user "user")
                ++ [(session_name user uuid8, Some "session")])%list
             (edges G ++ [(user, session_name user uuid8)])%list).
Proof.
  intros Hwf Hfresh. unfold get_or_create_session. cbn zeta. f_equal.
  set (s := session_name user uuid8) in *.
  set (G1 := add_node G user "user").
  assert (Hne : s <> user) by apply session_name_is_not_the_user.
  assert (Hs1 : has_node G1 s = false).
  { destruct (has_node G1 s) eqn:E; [|reflexivity].
    apply has_node_iff in E. subst G1. rewrite add_node_names in E.
    apply in_app_or in E. destruct E as [E | E].
    - apply has_node_iff in E. congruence.
    - destruct (has_node G user); [destruct E|]. destruct E as [E | []]. congruence. }
  assert (Hu1 : has_node G1 user = true).
  { apply has_node_iff. subst G1. rewrite add_node_names. apply in_or_app.
    destruct (has_node G user) eqn:E; [left; apply has_node_iff, E | right; left; reflexivity]. }
  assert (He1 : edges G1 = edges G) by apply add_node_nodes.
  assert (H2 : add_node G1 s "session" = mkGraph (nodes G1 ++ [(s, Some "session")])%list (edges G)).
  { unfold add_node. rewrite Hs1, He1. reflexivity. }
  rewrite H2. set (G2 := mkGraph _ _).
  assert (Hu2 : has_node G2 user = true).
  { apply has_node_iff. subst G2. cbn [nodes]. rewrite map_app. apply in_or_app.
    left. apply has_node_iff, Hu1. }
  assert (Hs2 : has_node G2 s = true).
  { apply has_node_iff. subst G2. cbn [nodes]. rewrite map_app. apply in_or_app.
    right. left. reflexivity. }
  unfold add_edge, touch_node. rewrite Hu2, Hs2.
  assert (Hedge : has_edge G2 user s = false).
  { pose proof (stranger_no_edge G user s Hwf Hfresh) as H. exact H. }
  rewrite Hedge. reflexivity.
Qed.

(** A successful [get_or_create_session] with a session name that is new
    adds exactly one session to the user's sessions and one connection to
    the user's relationship context, and keeps the graph well formed; a
    failed one returns the same session name and leaves the graph as it
    is, so the session it names is not counted. *)
Theorem new_session_is_counted (history_of : string -> Z -> list Message)
    (uuid8 : string) (G : Graph) (user : string) (e : exn) :
  well_formed G ->
  not_a_session G user ->
  has_node G (session_name user uuid8) = false ->
  let '(session, G') := get_or_create_session (Returned tt) uuid8 G user in
  session = session_name user uuid8
  /\ user_sessions G' user = (user_sessions G user ++ [session])%list
  /\ pt_total_sessions (analyze_cross_session_patterns history_of G' user)
     = (pt_total_sessions (analyze_cross_session_patterns history_of G user) + 1)%Z
  /\ connections (_get_relationship_context G' user)
     = (connections (_get_relationship_context G user) + 1)%Z
  /\ well_formed G' /\ not_a_session G' user
  /\ get_or_create_session (Raised e) uuid8 G user = (session, G).
Proof.
  intros Hwf Hns Hfresh. rewrite (created_graph uuid8 G user Hwf Hfresh).
  set (s := session_name user uuid8) in *.
  set (G1 := add_node G user "user").
  set (G3 := mkGraph _ _).
  assert (Hne : s <> user) by apply session_name_is_not_the_user.
  assert (Hsu : String.eqb s user = false) by (apply String.eqb_neq; exact Hne).
  assert (Hus : String.eqb user s = false) by (apply String.eqb_neq; congruence).
  assert (Hadj : forall m, adjacent G3 m
                           = (adjacent G m
                              ++ (if String.eqb user m then [s]
                                  else if String.eqb s m then [user] else []))%list).
  { intros m. unfold adjacent.
    change (edges G3) with (edges G ++ [(user, s)])%list. rewrite flat_map_app.
    cbn [flat_map]. rewrite app_nil_r. reflexivity. }
  assert (Hold : forall l,
             (forall x, In x l -> In x (nodes G)) ->
             flat_map (fun '(node, ty) =>
                         if match ty with
                            | Some t => String.eqb t "session"
                            | None => false
                            end
                            && existsb (fun neighbor => String.eqb neighbor user)
                                       (adjacent G3 node)
                         then [node] else [])
                      (map (fun '(m, old) =>
                              if String.eqb m user then (m, Some "user") else (m, old)) l)
             = flat_map (fun '(node, ty) =>
                           if match ty with
                              | Some t => String.eqb t "session"
                              | None => false
                              end
                              && existsb (fun neighbor => String.eqb neighbor user)
                                         (adjacent G node)
                           then [node] else [])
                        l).
  { induction l as [|[m ty] rest IH]; intros Hsub; [reflexivity|].
    cbn [map flat_map]. rewrite IH by (intros x Hx; apply Hsub; right; exact Hx).
    f_equal.
    assert (Hin : In (m, ty) (nodes G)) by (apply Hsub; left; reflexivity).
    destruct (String.eqb m user) eqn:Em.
    - apply String.eqb_eq in Em. subst m. cbn [andb].
      destruct ty as [t|]; [|reflexivity].
      destruct (String.eqb t "session") eqn:Et; [|reflexivity].
      apply String.eqb_eq in Et. subst t. contradiction.
    - rewrite Hadj.
      assert (Hum : String.eqb user m = false)
        by (rewrite String.eqb_sym; exact Em).
      assert (Hsm : String.eqb s m = false)
        by (rewrite String.eqb_sym; apply (has_node_false G s m ty Hfresh Hin)).
      rewrite Hum, Hsm, app_nil_r. reflexivity. }
  assert (Hsessions : user_sessions G3 user = (user_sessions G user ++ [s])%list).
  { unfold user_sessions.
    change (nodes G3) with (nodes G1 ++ [(s, Some "session")])%list.
    rewrite flat_map_app. f_equal.
    - unfold G1. destruct (add_node_nodes G user "user") as [-> _].
      rewrite flat_map_app, Hold by auto.
      destruct (has_node G user); cbn [flat_map]; rewrite ?app_nil_r; reflexivity.
    - cbn [flat_map]. rewrite app_nil_r, Hadj.
      rewrite (stranger_adjacent G s Hwf Hfresh), Hus, String.eqb_refl.
      rewrite !String.eqb_refl. cbn [app existsb]. rewrite !String.eqb_refl.
      reflexivity. }
  assert (Hu3 : has_node G3 user = true).
  { apply has_node_iff. unfold G3, G1. cbn [nodes]. rewrite map_app, add_node_names.
    apply in_or_app. left. apply in_or_app.
    destruct (has_node G user) eqn:E; [left; apply has_node_iff, E | right; left; reflexivity]. }
  assert (Hmono : forall x, has_node G x = true -> has_node G3 x = true).
  { intros x Hx. apply has_node_iff. unfold G3, G1. cbn [nodes].
    rewrite map_app, add_node_names. apply in_or_app. left. apply in_or_app. left.
    apply has_node_iff, Hx. }
  split; [reflexivity|]. split; [exact Hsessions|]. split; [|split; [|split; [|split]]].
  - unfold analyze_cross_session_patterns. cbn zeta. cbn [pt_total_sessions].
    rewrite Hsessions. unfold Py.len. rewrite length_app. cbn [List.length]. lia.
  - unfold _get_relationship_context. rewrite Hu3. cbn [negb]. cbn zeta.
    cbn [connections]. rewrite Hadj, String.eqb_refl.
    unfold Py.len. rewrite length_app. cbn [List.length].
    destruct (has_node G user) eqn:E; cbn [negb connections].
    + unfold Py.len. lia.
    + rewrite (stranger_adjacent G user Hwf E). cbn. lia.
  - intros a b Hin. change (edges G3) with (edges G ++ [(user, s)])%list in Hin.
    apply in_app_or in Hin.
    destruct Hin as [Hin | [Heq | []]].
    + destruct (Hwf a b Hin) as [Ha Hb]. split; apply Hmono; assumption.
    + inversion Heq; subst a b. split; [exact Hu3|].
      apply has_node_iff. unfold G3. cbn [nodes]. rewrite map_app. apply in_or_app.
      right. left. reflexivity.
  - unfold not_a_session. unfold G3, G1. cbn [nodes]. intros Hin.
    apply in_app_or in Hin. destruct Hin as [Hin | [Heq | []]].
    + destruct (add_node_nodes G user "user") as [Hn _]. rewrite Hn in Hin.
      apply in_app_or in Hin. destruct Hin as [Hin | Hin].
      * apply in_map_iff in Hin. destruct Hin as [[m ty] [Heq Hin]].
        destruct (String.eqb m user) eqn:Em; [discriminate|].
        inversion Heq; subst. rewrite String.eqb_refl in Em. discriminate.
      * destruct (has_node G user); [destruct Hin|].
        destruct Hin as [Heq | []]. discriminate.
    + inversion Heq. congruence.
  - reflexivity.
Qed.

(** The first session of a user in an empty graph. *)
Lemma new_session_is_counted_witness :
  let '(session, G') :=
    get_or_create_session (Returned tt) "0a1b2c3d" empty_graph "alice" in
  session = "aria_session_alice_0a1b2c3d"
  /\ user_sessions G' "alice" = ["aria_session_alice_0a1b2c3d"]
  /\ connections (_get_relationship_context G' "alice") = 1%Z.
Proof.
  pose proof (new_session_is_counted (fun _ _ => []) "0a1b2c3d" empty_graph "alice"
                (ServiceError "zep is down")) as H.
  destruct (get_or_create_session (Returned tt) "0a1b2c3d" empty_graph "alice")
    as [session G'].
  destruct H as (H1 & H2 & _ & H4 & _).
  - intros a b [].
  - intros [].
  - reflexivity.
  - split; [exact H1 | split; [rewrite H2, H1; reflexivity | exact H4]].
Defined.

(** The graph a successful [add_conversation] leaves, for a message name
    that is new. *)
Lemma recorded_graph (uuid8 : string) (G : Graph) (session : string) :
  well_formed G ->
  has_node G (message_name uuid8) = false ->
  add_conversation (Returned tt) uuid8 G session
  = mkGraph (nodes G ++ [(message_name uuid8, Some "message")]
               ++ (if has_node G session || String.eqb (message_name uuid8) session
                   then [] else [(session, None)]))%list
            (edges G ++ [(session, message_name uuid8)])%list.
Proof.
  intros Hwf Hfresh. unfold add_conversation. cbn zeta.
  set (msg := message_name uuid8) in *.
  assert (H1 : add_node G msg "message"
               = mkGraph (nodes G ++ [(msg, Some "message")])%list (edges G)).
  { unfold add_node. rewrite Hfresh. reflexivity. }
  rewrite H1. set (G1 := mkGraph _ _).
  assert (Hs1 : has_node G1 session = has_node G session || String.eqb msg session).
  { unfold has_node, G1. cbn [nodes]. rewrite existsb_app. cbn [existsb].
    rewrite orb_false_r. reflexivity. }
  assert (Hnoedge : forall nodes', has_edge (mkGraph nodes' (edges G)) session msg = false).
  { intros nodes'. exact (stranger_no_edge G session msg Hwf Hfresh). }
  unfold add_edge, touch_node. rewrite Hs1.
  destruct (has_node G session || String.eqb msg session) eqn:E.
  - assert (Hm : has_node G1 msg = true).
    { unfold has_node, G1. cbn [nodes]. rewrite existsb_app. cbn [existsb].
      rewrite String.eqb_refl, orb_true_r. reflexivity. }
    rewrite Hm. unfold G1 at 1. rewrite Hnoedge. unfold G1. cbn [nodes edges].
    rewrite app_nil_r. reflexivity.
  - set (G2 := mkGraph (nodes G1 ++ [(session, None)])%list (edges G1)).
    assert (Hm : has_node G2 msg = true).
    { unfold has_node, G2, G1. cbn [nodes]. rewrite !existsb_app. cbn [existsb].
      rewrite String.eqb_refl. cbn. rewrite orb_true_r. reflexivity. }
    rewrite Hm. unfold G2 at 1. unfold G1 at 2. cbn [edges]. rewrite Hnoedge.
    unfold G2, G1. cbn [nodes edges]. rewrite <- app_assoc. reflexivity.
Qed.

(** Recording a conversation never makes a session: a successful
    [add_conversation] with a message name that is new leaves the sessions
    of every user as they were, also when the session it is called with was
    never created (the node it then adds has no type), and keeps the graph
    well formed; a failed one leaves the graph as it is. *)
Theorem add_conversation_adds_no_session (uuid8 : string) (G : Graph)
    (session user : string) (e : exn) :
  well_formed G ->
  has_node G (message_name uuid8) = false ->
  message_name uuid8 <> user ->
  user_sessions (add_conversation (Returned tt) uuid8 G session) user
  = user_sessions G user
  /\ well_formed (add_conversation (Returned tt) uuid8 G session)
  /\ add_conversation (Raised e) uuid8 G session = G.
Proof.
  intros Hwf Hfresh Hmu. rewrite (recorded_graph uuid8 G session Hwf Hfresh).
  set (msg := message_name uuid8) in *.
  set (extra := if has_node G session || String.eqb msg session
                then [] else [(session, @None string)]).
  set (G' := mkGraph _ _).
  assert (Hmu' : String.eqb msg user = false) by (apply String.eqb_neq; exact Hmu).
  assert (Hadj : forall m, adjacent G' m
                           = (adjacent G m
                              ++ (if String.eqb session m then [msg]
                                  else if String.eqb msg m then [session] else []))%list).
  { intros m. unfold adjacent.
    change (edges G') with (edges G ++ [(session, msg)])%list. rewrite flat_map_app.
    cbn [flat_map]. rewrite app_nil_r. reflexivity. }
  split; [|split; [|reflexivity]].
  - unfold user_sessions.
    change (nodes G') with (nodes G ++ [(msg, Some "message")] ++ extra)%list.
    rewrite !flat_map_app.
    replace (flat_map _ [(msg, Some "message")]) with (@nil string) by reflexivity.
    replace (flat_map _ extra) with (@nil string)
      by (unfold extra; destruct (has_node G session || String.eqb msg session);
          reflexivity).
    rewrite !app_nil_r.
    assert (Hsub : forall x, In x (nodes G) -> In x (nodes G)) by auto.
    revert Hsub. generalize (nodes G) at 1 3 4. intros l.
    induction l as [|[m ty] rest IH]; intros Hsub; [reflexivity|].
    cbn [flat_map]. rewrite IH by (intros x Hx; apply Hsub; right; exact Hx).
    f_equal.
    assert (Hin : In (m, ty) (nodes G)) by (apply Hsub; left; reflexivity).
    assert (Hmm : String.eqb msg m = false)
      by (rewrite String.eqb_sym; apply (has_node_false G msg m ty Hfresh Hin)).
    rewrite Hadj, existsb_app, Hmm.
    destruct (String.eqb session m); cbn [existsb]; rewrite ?Hmu', !orb_false_r;
      reflexivity.
  - assert (Hmono : forall x, has_node G x = true -> has_node G' x = true).
    { intros x Hx. unfold has_node.
      change (nodes G') with (nodes G ++ [(msg, Some "message")] ++ extra)%list.
      rewrite existsb_app. unfold has_node in Hx. rewrite Hx. reflexivity. }
    intros a b Hin. change (edges G') with (edges G ++ [(session, msg)])%list in Hin.
    apply in_app_or in Hin. destruct Hin as [Hin | [Heq | []]].
    + destruct (Hwf a b Hin) as [Ha Hb]. split; apply Hmono; assumption.
    + inversion Heq; subst a b. split.
      * apply has_node_iff.
        change (nodes G') with (nodes G ++ [(msg, Some "message")] ++ extra)%list.
        rewrite !map_app. unfold extra.
        destruct (has_node G session) eqn:E1.
        -- apply in_or_app. left. apply has_node_iff, E1.
        -- destruct (String.eqb msg session) eqn:E2; cbn [orb map fst].
           ++ apply String.eqb_eq in E2. apply in_or_app. right.
              apply in_or_app. left. left. exact E2.
           ++ apply in_or_app. right. apply in_or_app. right. left. reflexivity.
      * apply has_node_iff.
        change (nodes G') with (nodes G ++ [(msg, Some "message")] ++ extra)%list.
        rewrite !map_app. apply in_or_app. right. apply in_or_app. left. left.
        reflexivity.
Qed.

(** A conversation recorded for a session nobody created. *)
Lemma add_conversation_adds_no_session_witness :
  user_sessions (add_conversation (Returned tt) "0a1b2c3d" empty_graph "session-1")
                "alice"
  = user_sessions empty_graph "alice".
Proof.
  apply (add_conversation_adds_no_session "0a1b2c3d" empty_graph "session-1" "alice"
           (ServiceError "zep is down")).
  - intros a b [].
  - reflexivity.
  - discriminate.
Defined.

End RelationshipGraph.
